(** * Breakout users service: profile views, access policy and the
      available-riders cache (src/users/views.py, src/users/serializers.py)

    Shallow embedding of the Django REST Framework view sets
    [PassengerViewSet] and [RiderViewSet].  The persistent store is an
    explicit [DB] value; the cache is a keyed store whose entries carry an
    absolute expiry time; every request runs at a time [now] (seconds) on
    behalf of an authenticated [User], and returns a [Response] together
    with the new state. *)

From Stdlib Require Import List String Ascii ZArith Bool Lia.
Import ListNotations.
Open Scope string_scope.

(** ** Data model *)

(** [users.models.User], as far as [UserSerializer] and the views read it. *)
Record User := mkUser {
  user_id : nat;
  email : string;
  first_name : string;
  last_name : string;
  phone_number : string;
  user_type : string;
  date_joined : Z;
  is_staff : bool
}.

(** [users.models.Rider]: the fields listed by [RiderSerializer], with the
    owner ([user]) as a user id. Coordinates are nullable decimals. *)
Record Rider := mkRider {
  rider_pk : nat;
  rider_user : nat;
  r_profile_picture : string;
  license_number : string;
  license_picture : string;
  id_number_picture : string;
  verification_status : string;
  verification_notes : string;
  is_available : bool;
  current_latitude : option Z;
  current_longitude : option Z;
  average_rating : Z;
  total_rides : Z;
  total_earnings : Z;
  r_created_at : Z;
  r_updated_at : Z
}.

(** [users.models.Passenger]: the fields listed by [PassengerSerializer]. *)
Record Passenger := mkPassenger {
  passenger_pk : nat;
  passenger_user : nat;
  passenger_id : string;
  preferred_payment_method : string;
  home_address : string;
  p_profile_picture : string;
  preferred_language : string;
  emergency_contact : string;
  is_verified : bool;
  p_created_at : Z;
  p_updated_at : Z
}.

(** The relational store: the three tables and the next primary key. *)
Record DB := mkDB {
  users : list User;
  passengers : list Passenger;
  riders : list Rider;
  next_pk : nat
}.

(** ** Serializers *)

(** [UserSerializer(user).data]. *)
Record UserView := mkUserView {
  uv_id : nat;
  uv_email : string;
  uv_first_name : string;
  uv_last_name : string;
  uv_phone_number : string;
  uv_user_type : string;
  uv_date_joined : Z
}.

Definition serialize_user (u : User) : UserView :=
  mkUserView (user_id u) (email u) (first_name u) (last_name u)
    (phone_number u) (user_type u) (date_joined u).

Definition find_user (db : DB) (uid : nat) : option User :=
  find (fun u => Nat.eqb (user_id u) uid) (users db).

(** [RiderSerializer(rider).data]: the nested [user] is read-only. *)
Record RiderView := mkRiderView {
  rv_id : nat;
  rv_user : option UserView;
  rv_profile_picture : string;
  rv_license_number : string;
  rv_license_picture : string;
  rv_id_number_picture : string;
  rv_verification_status : string;
  rv_verification_notes : string;
  rv_is_available : bool;
  rv_current_latitude : option Z;
  rv_current_longitude : option Z;
  rv_average_rating : Z;
  rv_total_rides : Z;
  rv_total_earnings : Z;
  rv_created_at : Z;
  rv_updated_at : Z
}.

Definition serialize_rider (db : DB) (r : Rider) : RiderView :=
  mkRiderView (rider_pk r) (option_map serialize_user (find_user db (rider_user r)))
    (r_profile_picture r) (license_number r) (license_picture r)
    (id_number_picture r) (verification_status r) (verification_notes r)
    (is_available r) (current_latitude r) (current_longitude r)
    (average_rating r) (total_rides r) (total_earnings r)
    (r_created_at r) (r_updated_at r).

(** [PassengerSerializer(passenger).data]. *)
Record PassengerView := mkPassengerView {
  pv_id : nat;
  pv_user : option UserView;
  pv_passenger_id : string;
  pv_preferred_payment_method : string;
  pv_home_address : string;
  pv_profile_picture : string;
  pv_preferred_language : string;
  pv_emergency_contact : string;
  pv_is_verified : bool;
  pv_created_at : Z;
  pv_updated_at : Z
}.

Definition serialize_passenger (db : DB) (p : Passenger) : PassengerView :=
  mkPassengerView (passenger_pk p)
    (option_map serialize_user (find_user db (passenger_user p)))
    (passenger_id p) (preferred_payment_method p) (home_address p)
    (p_profile_picture p) (preferred_language p) (emergency_contact p)
    (is_verified p) (p_created_at p) (p_updated_at p).

(** ** The cache ([django.core.cache.cache])

    A keyed store; each entry holds the cached value and its absolute
    expiry time. An entry is live while [now < expiry]. The only values
    the views store are serialized rider lists. *)
Definition Cache := list (string * (list RiderView * Z)).

Fixpoint cache_lookup (k : string) (c : Cache) : option (list RiderView * Z) :=
  match c with
  | [] => None
  | (k', e) :: c' => if String.eqb k k' then Some e else cache_lookup k c'
  end.

(** [cache.get(key)]: [None] when absent or expired. *)
Definition cache_get (k : string) (now : Z) (c : Cache) : option (list RiderView) :=
  match cache_lookup k c with
  | Some (v, exp) => if Z.ltb now exp then Some v else None
  | None => None
  end.

(** [cache.delete(key)]. *)
Definition cache_delete (k : string) (c : Cache) : Cache :=
  filter (fun e => negb (String.eqb k (fst e))) c.

(** [cache.set(key, value, timeout)]. *)
Definition cache_set (k : string) (v : list RiderView) (timeout now : Z) (c : Cache)
  : Cache :=
  (k, (v, (now + timeout)%Z)) :: cache_delete k c.

(** ** Requests and responses *)

Record State := mkState { db : DB; cache : Cache }.

(** Response bodies: serializer data, the views' [{'error': ...}] bodies,
    DRF's [{'detail': ...}] bodies, and a server error (uncaught exception). *)
Inductive Body :=
| BRiders (vs : list RiderView)
| BRider (v : RiderView)
| BPassengers (vs : list PassengerView)
| BPassenger (v : PassengerView)
| BError (msg : string)
| BDetail (msg : string)
| BNoContent
| BServerError.

Record Response := mkResponse { status_code : Z; body : Body }.

Definition HTTP_200_OK := 200%Z.
Definition HTTP_201_CREATED := 201%Z.
Definition HTTP_204_NO_CONTENT := 204%Z.
Definition HTTP_400_BAD_REQUEST := 400%Z.
Definition HTTP_403_FORBIDDEN := 403%Z.
Definition HTTP_404_NOT_FOUND := 404%Z.
Definition HTTP_500_INTERNAL_SERVER_ERROR := 500%Z.

(** ** [RiderViewSet.available_riders] *)

Definition available_riders_key := "available_riders".

(** [Rider.objects.filter(is_available=True, verification_status='approved')] *)
Definition available_filter (db : DB) : list Rider :=
  filter (fun r => is_available r && String.eqb (verification_status r) "approved")
    (riders db).

Definition available_riders (now : Z) (st : State) : Response * State :=
  let cache_key := available_riders_key in
  match cache_get cache_key now (cache st) with
  | Some cached_data => (mkResponse HTTP_200_OK (BRiders cached_data), st)
  | None =>
      let data := map (serialize_rider (db st)) (available_filter (db st)) in
      (mkResponse HTTP_200_OK (BRiders data),
       mkState (db st) (cache_set cache_key data 300 now (cache st)))
  end.

(** Whether a call at [now] runs the store query (the [cached_data is None]
    branch). *)
Definition recomputes (now : Z) (st : State) : bool :=
  match cache_get available_riders_key now (cache st) with
  | Some _ => false
  | None => true
  end.

(** ** Request payloads ([request.data], parsed JSON) *)

Inductive jvalue :=
| JNull
| JBool (b : bool)
| JNum (z : Z)
| JStr (s : string).

Definition Payload := list (string * jvalue).

Fixpoint payload_lookup (k : string) (d : Payload) : option jvalue :=
  match d with
  | [] => None
  | (k', v) :: d' => if String.eqb k k' then Some v else payload_lookup k d'
  end.

(** [request.data.get(k)]: Python [None] when the key is absent or the JSON
    value is [null]. *)
Definition py_get (d : Payload) (k : string) : option jvalue :=
  match payload_lookup k d with
  | Some JNull => None
  | other => other
  end.

(** ** Record updates *)

Definition rider_set_profile_picture (r : Rider) (x : string) : Rider :=
  mkRider (rider_pk r) (rider_user r) x (license_number r) (license_picture r)
    (id_number_picture r) (verification_status r) (verification_notes r)
    (is_available r) (current_latitude r) (current_longitude r) (average_rating r)
    (total_rides r) (total_earnings r) (r_created_at r) (r_updated_at r).

Definition rider_set_license_number (r : Rider) (x : string) : Rider :=
  mkRider (rider_pk r) (rider_user r) (r_profile_picture r) x (license_picture r)
    (id_number_picture r) (verification_status r) (verification_notes r)
    (is_available r) (current_latitude r) (current_longitude r) (average_rating r)
    (total_rides r) (total_earnings r) (r_created_at r) (r_updated_at r).

Definition rider_set_license_picture (r : Rider) (x : string) : Rider :=
  mkRider (rider_pk r) (rider_user r) (r_profile_picture r) (license_number r) x
    (id_number_picture r) (verification_status r) (verification_notes r)
    (is_available r) (current_latitude r) (current_longitude r) (average_rating r)
    (total_rides r) (total_earnings r) (r_created_at r) (r_updated_at r).

Definition rider_set_id_number_picture (r : Rider) (x : string) : Rider :=
  mkRider (rider_pk r) (rider_user r) (r_profile_picture r) (license_number r)
    (license_picture r) x (verification_status r) (verification_notes r)
    (is_available r) (current_latitude r) (current_longitude r) (average_rating r)
    (total_rides r) (total_earnings r) (r_created_at r) (r_updated_at r).

Definition rider_set_verification_status (r : Rider) (x : string) : Rider :=
  mkRider (rider_pk r) (rider_user r) (r_profile_picture r) (license_number r)
    (license_picture r) (id_number_picture r) x (verification_notes r)
    (is_available r) (current_latitude r) (current_longitude r) (average_rating r)
    (total_rides r) (total_earnings r) (r_created_at r) (r_updated_at r).

Definition rider_set_verification_notes (r : Rider) (x : string) : Rider :=
  mkRider (rider_pk r) (rider_user r) (r_profile_picture r) (license_number r)
    (license_picture r) (id_number_picture r) (verification_status r) x
    (is_available r) (current_latitude r) (current_longitude r) (average_rating r)
    (total_rides r) (total_earnings r) (r_created_at r) (r_updated_at r).

Definition rider_set_is_available (r : Rider) (x : bool) : Rider :=
  mkRider (rider_pk r) (rider_user r) (r_profile_picture r) (license_number r)
    (license_picture r) (id_number_picture r) (verification_status r)
    (verification_notes r) x (current_latitude r) (current_longitude r)
    (average_rating r) (total_rides r) (total_earnings r) (r_created_at r)
    (r_updated_at r).

Definition rider_set_current_latitude (r : Rider) (x : option Z) : Rider :=
  mkRider (rider_pk r) (rider_user r) (r_profile_picture r) (license_number r)
    (license_picture r) (id_number_picture r) (verification_status r)
    (verification_notes r) (is_available r) x (current_longitude r)
    (average_rating r) (total_rides r) (total_earnings r) (r_created_at r)
    (r_updated_at r).

Definition rider_set_current_longitude (r : Rider) (x : option Z) : Rider :=
  mkRider (rider_pk r) (rider_user r) (r_profile_picture r) (license_number r)
    (license_picture r) (id_number_picture r) (verification_status r)
    (verification_notes r) (is_available r) (current_latitude r) x
    (average_rating r) (total_rides r) (total_earnings r) (r_created_at r)
    (r_updated_at r).

Definition rider_set_updated_at (r : Rider) (x : Z) : Rider :=
  mkRider (rider_pk r) (rider_user r) (r_profile_picture r) (license_number r)
    (license_picture r) (id_number_picture r) (verification_status r)
    (verification_notes r) (is_available r) (current_latitude r)
    (current_longitude r) (average_rating r) (total_rides r) (total_earnings r)
    (r_created_at r) x.

Definition passenger_set_string (p : Passenger) (k : string) (x : string) : Passenger :=
  mkPassenger (passenger_pk p) (passenger_user p)
    (if String.eqb k "passenger_id" then x else passenger_id p)
    (if String.eqb k "preferred_payment_method" then x else preferred_payment_method p)
    (if String.eqb k "home_address" then x else home_address p)
    (if String.eqb k "profile_picture" then x else p_profile_picture p)
    (if String.eqb k "preferred_language" then x else preferred_language p)
    (if String.eqb k "emergency_contact" then x else emergency_contact p)
    (is_verified p) (p_created_at p) (p_updated_at p).

Definition passenger_set_is_verified (p : Passenger) (x : bool) : Passenger :=
  mkPassenger (passenger_pk p) (passenger_user p) (passenger_id p)
    (preferred_payment_method p) (home_address p) (p_profile_picture p)
    (preferred_language p) (emergency_contact p) x (p_created_at p) (p_updated_at p).

Definition passenger_set_updated_at (p : Passenger) (x : Z) : Passenger :=
  mkPassenger (passenger_pk p) (passenger_user p) (passenger_id p)
    (preferred_payment_method p) (home_address p) (p_profile_picture p)
    (preferred_language p) (emergency_contact p) (is_verified p) (p_created_at p) x.

(** Table updates: replace the row with the same primary key, delete it. *)
Definition replace_rider (r : Rider) (rs : list Rider) : list Rider :=
  map (fun r' => if Nat.eqb (rider_pk r') (rider_pk r) then r else r') rs.

Definition replace_passenger (p : Passenger) (ps : list Passenger) : list Passenger :=
  map (fun p' => if Nat.eqb (passenger_pk p') (passenger_pk p) then p else p') ps.

Definition db_set_riders (d : DB) (rs : list Rider) : DB :=
  mkDB (users d) (passengers d) rs (next_pk d).

Definition db_set_passengers (d : DB) (ps : list Passenger) : DB :=
  mkDB (users d) ps (riders d) (next_pk d).

(** ** The view sets *)

Section Views.

(** Behaviour of [users/models.py], which is not among the sources, enters
    as parameters: [to_decimal] is [DecimalField.to_python] on a submitted
    coordinate ([None] when it raises); [rider_defaults] and
    [passenger_defaults] hold the model field defaults used by [create];
    [rider_required_ok] and [passenger_required_ok] are the required-field
    checks that [ModelSerializer] derives from the model. *)
Variable to_decimal : jvalue -> option Z.
Variable rider_defaults : Rider.
Variable passenger_defaults : Passenger.
Variable rider_required_ok : Payload -> bool.
Variable passenger_required_ok : Payload -> bool.

Definition parse_string (v : jvalue) : option string :=
  match v with JStr s => Some s | _ => None end.

Definition parse_bool (v : jvalue) : option bool :=
  match v with JBool b => Some b | _ => None end.

(** A nullable [DecimalField] of the serializer. *)
Definition parse_decimal_null (v : jvalue) : option (option Z) :=
  match v with JNull => Some None | _ => option_map Some (to_decimal v) end.

(** Modelled from the spec: the choices of [Rider.verification_status]
    ("enum: pending, approved, rejected"). *)
Definition verification_status_choices : list string :=
  ["pending"; "approved"; "rejected"].

(** One submitted key of a [RiderSerializer] write: writable fields are
    validated and applied; read-only fields ([id], [user], [average_rating],
    [total_rides], [total_earnings], [created_at], [updated_at]) and unknown
    keys are ignored, as DRF does. [None] is a validation error. *)
Definition apply_rider_field (r : Rider) (k : string) (v : jvalue) : option Rider :=
  if String.eqb k "profile_picture" then
    option_map (rider_set_profile_picture r) (parse_string v)
  else if String.eqb k "license_number" then
    option_map (rider_set_license_number r) (parse_string v)
  else if String.eqb k "license_picture" then
    option_map (rider_set_license_picture r) (parse_string v)
  else if String.eqb k "id_number_picture" then
    option_map (rider_set_id_number_picture r) (parse_string v)
  else if String.eqb k "verification_status" then
    match parse_string v with
    | Some s => if existsb (String.eqb s) verification_status_choices
                then Some (rider_set_verification_status r s) else None
    | None => None
    end
  else if String.eqb k "verification_notes" then
    option_map (rider_set_verification_notes r) (parse_string v)
  else if String.eqb k "is_available" then
    option_map (rider_set_is_available r) (parse_bool v)
  else if String.eqb k "current_latitude" then
    option_map (rider_set_current_latitude r) (parse_decimal_null v)
  else if String.eqb k "current_longitude" then
    option_map (rider_set_current_longitude r) (parse_decimal_null v)
  else Some r.

Fixpoint apply_rider_fields (r : Rider) (d : Payload) : option Rider :=
  match d with
  | [] => Some r
  | (k, v) :: d' =>
      match apply_rider_field r k v with
      | Some r' => apply_rider_fields r' d'
      | None => None
      end
  end.

(** The same for [PassengerSerializer]. *)
Definition apply_passenger_field (p : Passenger) (k : string) (v : jvalue)
  : option Passenger :=
  if existsb (String.eqb k) ["passenger_id"; "preferred_payment_method";
                             "home_address"; "profile_picture";
                             "preferred_language"; "emergency_contact"] then
    option_map (passenger_set_string p k) (parse_string v)
  else if String.eqb k "is_verified" then
    option_map (passenger_set_is_verified p) (parse_bool v)
  else Some p.

Fixpoint apply_passenger_fields (p : Passenger) (d : Payload) : option Passenger :=
  match d with
  | [] => Some p
  | (k, v) :: d' =>
      match apply_passenger_field p k v with
      | Some p' => apply_passenger_fields p' d'
      | None => None
      end
  end.

(** Modelled from the spec: [Rider.save()] on an existing row writes every
    field and refreshes the "updated timestamp" to the time of the save. *)
Definition rider_save (now : Z) (r : Rider) (d : DB) : Rider * DB :=
  let r' := rider_set_updated_at r now in
  (r', db_set_riders d (replace_rider r' (riders d))).

(** Modelled from the spec: [Passenger.save()], likewise. *)
Definition passenger_save (now : Z) (p : Passenger) (d : DB) : Passenger * DB :=
  let p' := passenger_set_updated_at p now in
  (p', db_set_passengers d (replace_passenger p' (passengers d))).

Definition not_found : Response := mkResponse HTTP_404_NOT_FOUND (BDetail "Not found.").
Definition bad_request : Response := mkResponse HTTP_400_BAD_REQUEST (BDetail "Invalid input.").
Definition server_error : Response := mkResponse HTTP_500_INTERNAL_SERVER_ERROR BServerError.

(** *** [RiderViewSet] *)

(** [RiderViewSet.get_queryset]. *)
Definition rider_get_queryset (u : User) (d : DB) : list Rider :=
  if is_staff u then riders d
  else filter (fun r => Nat.eqb (rider_user r) (user_id u)) (riders d).

(** [GenericAPIView.get_object]: look the primary key up in [get_queryset],
    [Http404] when it is not there. *)
Definition rider_get_object (u : User) (pk : nat) (d : DB) : option Rider :=
  find (fun r => Nat.eqb (rider_pk r) pk) (rider_get_queryset u d).

(** [ListModelMixin.list]. *)
Definition rider_list (u : User) (st : State) : Response * State :=
  (mkResponse HTTP_200_OK
     (BRiders (map (serialize_rider (db st)) (rider_get_queryset u (db st)))), st).

(** [RetrieveModelMixin.retrieve]. *)
Definition rider_retrieve (u : User) (pk : nat) (st : State) : Response * State :=
  match rider_get_object u pk (db st) with
  | None => (not_found, st)
  | Some r => (mkResponse HTTP_200_OK (BRider (serialize_rider (db st) r)), st)
  end.

(** The row [Rider.objects.create] on the validated data inserts. *)
Definition rider_new_row (pk uid : nat) (now : Z) (r : Rider) : Rider :=
  mkRider pk uid (r_profile_picture r) (license_number r) (license_picture r)
    (id_number_picture r) (verification_status r) (verification_notes r)
    (is_available r) (current_latitude r) (current_longitude r)
    (average_rating r) (total_rides r) (total_earnings r) now now.

(** [CreateModelMixin.create] with [RiderViewSet.perform_create]
    ([serializer.save(user=self.request.user)]). The one-to-one owner
    column makes a second profile for the same user fail on insert
    (modelled from the spec: "a User has at most one ... Rider record"). *)
Definition rider_create (u : User) (data : Payload) (now : Z) (st : State)
  : Response * State :=
  let d := db st in
  if negb (rider_required_ok data) then (bad_request, st) else
  match apply_rider_fields rider_defaults data with
  | None => (bad_request, st)
  | Some validated =>
      if existsb (fun r => Nat.eqb (rider_user r) (user_id u)) (riders d)
      then (server_error, st)
      else
        let r := rider_new_row (next_pk d) (user_id u) now validated in
        let d' := mkDB (users d) (passengers d) (riders d ++ [r]) (S (next_pk d)) in
        (mkResponse HTTP_201_CREATED (BRider (serialize_rider d' r)),
         mkState d' (cache st))
  end.

(** [UpdateModelMixin.partial_update]: the generic update path
    ([serializer.save()], no cache operation). *)
Definition rider_partial_update (u : User) (pk : nat) (data : Payload) (now : Z)
  (st : State) : Response * State :=
  match rider_get_object u pk (db st) with
  | None => (not_found, st)
  | Some instance =>
      match apply_rider_fields instance data with
      | None => (bad_request, st)
      | Some r =>
          let (r', d') := rider_save now r (db st) in
          (mkResponse HTTP_200_OK (BRider (serialize_rider d' r')),
           mkState d' (cache st))
      end
  end.

(** [DestroyModelMixin.destroy]. *)
Definition rider_destroy (u : User) (pk : nat) (st : State) : Response * State :=
  match rider_get_object u pk (db st) with
  | None => (not_found, st)
  | Some r =>
      let d := db st in
      (mkResponse HTTP_204_NO_CONTENT BNoContent,
       mkState (db_set_riders d
                  (filter (fun r' => negb (Nat.eqb (rider_pk r') (rider_pk r))) (riders d)))
               (cache st))
  end.

(** [RiderViewSet.my_profile]: [Rider.objects.get(user=request.user)];
    [DoesNotExist] is caught, [MultipleObjectsReturned] is not. *)
Definition rider_my_profile (u : User) (st : State) : Response * State :=
  match filter (fun r => Nat.eqb (rider_user r) (user_id u)) (riders (db st)) with
  | [rider] => (mkResponse HTTP_200_OK (BRider (serialize_rider (db st) rider)), st)
  | [] => (mkResponse HTTP_404_NOT_FOUND (BError "Rider profile not found"), st)
  | _ => (server_error, st)
  end.

(** [rider.current_latitude = latitude] when [latitude is not None]; the
    assigned value is converted by the decimal field when [rider.save()]
    runs, and a value it rejects raises there. *)
Definition assign_coordinate (x : option jvalue) (cur : option Z) : option (option Z) :=
  match x with
  | None => Some cur
  | Some v => option_map Some (to_decimal v)
  end.

(** [RiderViewSet.update_location]. *)
Definition update_location (u : User) (pk : nat) (data : Payload) (now : Z)
  (st : State) : Response * State :=
  match rider_get_object u pk (db st) with
  | None => (not_found, st)
  | Some rider =>
      if negb (Nat.eqb (rider_user rider) (user_id u)) && negb (is_staff u) then
        (mkResponse HTTP_403_FORBIDDEN (BError "Permission denied"), st)
      else
        let latitude := py_get data "current_latitude" in
        let longitude := py_get data "current_longitude" in
        match assign_coordinate latitude (current_latitude rider),
              assign_coordinate longitude (current_longitude rider) with
        | Some lat, Some lon =>
            let rider1 := rider_set_current_longitude
                            (rider_set_current_latitude rider lat) lon in
            let (rider2, d') := rider_save now rider1 (db st) in
            let c' := cache_delete available_riders_key (cache st) in
            (mkResponse HTTP_200_OK (BRider (serialize_rider d' rider2)),
             mkState d' c')
        | _, _ => (server_error, st)
        end
  end.

(** *** [PassengerViewSet] *)

(** [PassengerViewSet.get_queryset]. *)
Definition passenger_get_queryset (u : User) (d : DB) : list Passenger :=
  if is_staff u then passengers d
  else filter (fun p => Nat.eqb (passenger_user p) (user_id u)) (passengers d).

Definition passenger_get_object (u : User) (pk : nat) (d : DB) : option Passenger :=
  find (fun p => Nat.eqb (passenger_pk p) pk) (passenger_get_queryset u d).

Definition passenger_list (u : User) (st : State) : Response * State :=
  (mkResponse HTTP_200_OK
     (BPassengers (map (serialize_passenger (db st))
                     (passenger_get_queryset u (db st)))), st).

Definition passenger_retrieve (u : User) (pk : nat) (st : State) : Response * State :=
  match passenger_get_object u pk (db st) with
  | None => (not_found, st)
  | Some p => (mkResponse HTTP_200_OK (BPassenger (serialize_passenger (db st) p)), st)
  end.

Definition passenger_new_row (pk uid : nat) (now : Z) (p : Passenger) : Passenger :=
  mkPassenger pk uid (passenger_id p) (preferred_payment_method p) (home_address p)
    (p_profile_picture p) (preferred_language p) (emergency_contact p)
    (is_verified p) now now.

(** [CreateModelMixin.create] with [PassengerViewSet.perform_create]. *)
Definition passenger_create (u : User) (data : Payload) (now : Z) (st : State)
  : Response * State :=
  let d := db st in
  if negb (passenger_required_ok data) then (bad_request, st) else
  match apply_passenger_fields passenger_defaults data with
  | None => (bad_request, st)
  | Some validated =>
      if existsb (fun p => Nat.eqb (passenger_user p) (user_id u)) (passengers d)
      then (server_error, st)
      else
        let p := passenger_new_row (next_pk d) (user_id u) now validated in
        let d' := mkDB (users d) (passengers d ++ [p]) (riders d) (S (next_pk d)) in
        (mkResponse HTTP_201_CREATED (BPassenger (serialize_passenger d' p)),
         mkState d' (cache st))
  end.

Definition passenger_partial_update (u : User) (pk : nat) (data : Payload) (now : Z)
  (st : State) : Response * State :=
  match passenger_get_object u pk (db st) with
  | None => (not_found, st)
  | Some instance =>
      match apply_passenger_fields instance data with
      | None => (bad_request, st)
      | Some p =>
          let (p', d') := passenger_save now p (db st) in
          (mkResponse HTTP_200_OK (BPassenger (serialize_passenger d' p')),
           mkState d' (cache st))
      end
  end.

Definition passenger_destroy (u : User) (pk : nat) (st : State) : Response * State :=
  match passenger_get_object u pk (db st) with
  | None => (not_found, st)
  | Some p =>
      let d := db st in
      (mkResponse HTTP_204_NO_CONTENT BNoContent,
       mkState (db_set_passengers d
                  (filter (fun p' => negb (Nat.eqb (passenger_pk p') (passenger_pk p)))
                     (passengers d)))
               (cache st))
  end.

(** [PassengerViewSet.my_profile]. *)
Definition passenger_my_profile (u : User) (st : State) : Response * State :=
  match filter (fun p => Nat.eqb (passenger_user p) (user_id u)) (passengers (db st)) with
  | [p] => (mkResponse HTTP_200_OK (BPassenger (serialize_passenger (db st) p)), st)
  | [] => (mkResponse HTTP_404_NOT_FOUND (BError "Passenger profile not found"), st)
  | _ => (server_error, st)
  end.

(** *** Routing ([DefaultRouter] over both view sets) *)

Inductive Request :=
| RiderList
| RiderRetrieve (pk : nat)
| RiderCreate (data : Payload)
| RiderPartialUpdate (pk : nat) (data : Payload)
| RiderDestroy (pk : nat)
| RiderMyProfile
| RiderAvailable
| RiderUpdateLocation (pk : nat) (data : Payload)
| PassengerList
| PassengerRetrieve (pk : nat)
| PassengerCreate (data : Payload)
| PassengerPartialUpdate (pk : nat) (data : Payload)
| PassengerDestroy (pk : nat)
| PassengerMyProfile.

Definition handle (u : User) (now : Z) (req : Request) (st : State) : Response * State :=
  match req with
  | RiderList => rider_list u st
  | RiderRetrieve pk => rider_retrieve u pk st
  | RiderCreate data => rider_create u data now st
  | RiderPartialUpdate pk data => rider_partial_update u pk data now st
  | RiderDestroy pk => rider_destroy u pk st
  | RiderMyProfile => rider_my_profile u st
  | RiderAvailable => available_riders now st
  | RiderUpdateLocation pk data => update_location u pk data now st
  | PassengerList => passenger_list u st
  | PassengerRetrieve pk => passenger_retrieve u pk st
  | PassengerCreate data => passenger_create u data now st
  | PassengerPartialUpdate pk data => passenger_partial_update u pk data now st
  | PassengerDestroy pk => passenger_destroy u pk st
  | PassengerMyProfile => passenger_my_profile u st
  end.

(** A run of requests, each by a requester at a time; returns the final
    state and the responses in order. *)
Fixpoint run (reqs : list (User * Z * Request)) (st : State) : State * list Response :=
  match reqs with
  | [] => (st, [])
  | (u, now, req) :: reqs' =>
      let (resp, st1) := handle u now req st in
      let (st2, resps) := run reqs' st1 in
      (st2, resp :: resps)
  end.

End Views.

(** ** Observations used by the statements *)

(** Requests other than [available_riders] and [update_location] never
    touch the cache: the generic CRUD paths and [my_profile] of both view
    sets. *)
Definition cache_neutral (req : Request) : bool :=
  match req with
  | RiderAvailable | RiderUpdateLocation _ _ => false
  | _ => true
  end.

(** A request that may run between two [available_riders] calls: any
    request other than a location update, at a time up to [t2]. *)
Definition between_calls (t2 : Z) (x : User * Z * Request) : Prop :=
  let '(_, t, req) := x in
  (t <= t2)%Z /\ match req with RiderUpdateLocation _ _ => False | _ => True end.

(** The response and state of an authorized [update_location] that saves
    [r']: the row is written back and the slot deleted. *)
Definition location_saved (r' : Rider) (now : Z) (st : State) : Response * State :=
  let r'' := rider_set_updated_at r' now in
  let d' := db_set_riders (db st) (replace_rider r'' (riders (db st))) in
  (mkResponse HTTP_200_OK (BRider (serialize_rider d' r'')),
   mkState d' (cache_delete available_riders_key (cache st))).

(** ** Registration: [UserViewSet.create] with [UserRegistrationSerializer] *)

Definition jvalue_eqb (a b : jvalue) : bool :=
  match a, b with
  | JNull, JNull => true
  | JBool x, JBool y => Bool.eqb x y
  | JNum x, JNum y => Z.eqb x y
  | JStr x, JStr y => String.eqb x y
  | _, _ => false
  end.

(** [str.isspace] on the code points below 256 (the strings of this model
    are 8-bit). *)
Definition py_isspace (c : ascii) : bool :=
  let n := nat_of_ascii c in
  (Nat.leb 9 n && Nat.leb n 13) || (Nat.leb 28 n && Nat.leb n 32) ||
  Nat.eqb n 133 || Nat.eqb n 160.

Fixpoint py_lstrip (s : string) : string :=
  match s with
  | EmptyString => EmptyString
  | String c s' => if py_isspace c then py_lstrip s' else s
  end.

Fixpoint py_rstrip (s : string) : string :=
  match s with
  | EmptyString => EmptyString
  | String c s' =>
      let r := py_rstrip s' in
      if py_isspace c && String.eqb r EmptyString then EmptyString else String c r
  end.

(** [str.strip()]. *)
Definition py_strip (s : string) : string := py_rstrip (py_lstrip s).

(** Decimal digits of a positive [n], prepended to [acc]; [fuel] bounds the
    number of digits. *)
Fixpoint z_digits (fuel : nat) (n : Z) (acc : string) : string :=
  match fuel with
  | O => acc
  | S f =>
      let acc' := String (ascii_of_nat (48 + Z.to_nat (n mod 10))) acc in
      if (n / 10 =? 0)%Z then acc' else z_digits f (n / 10) acc'
  end.

(** [str(n)] for a Python [int]. *)
Definition py_str_int (z : Z) : string :=
  match z with
  | Z0 => "0"
  | Zpos p => z_digits (Pos.size_nat p) z EmptyString
  | Zneg p => String.append "-" (z_digits (Pos.size_nat p) (Zpos p) EmptyString)
  end.

Fixpoint has_null_char (s : string) : bool :=
  match s with
  | EmptyString => false
  | String c s' => Nat.eqb (nat_of_ascii c) 0 || has_null_char s'
  end.

(** [serializers.CharField().run_validation(data)] with the defaults
    ([allow_null=False], [allow_blank=False], [trim_whitespace=True]): [null]
    and booleans are refused, numbers become [str(data)], strings are
    stripped, a blank result is refused, and so is a NUL character
    ([ProhibitNullCharactersValidator]). [None] is a field error. *)
Definition char_field_run_validation (v : jvalue) : option string :=
  match v with
  | JNull | JBool _ => None
  | JNum z => Some (py_str_int z)
  | JStr s =>
      let t := py_strip s in
      if String.eqb t EmptyString then None
      else if has_null_char t then None
      else Some t
  end.

(** [UserRegistrationSerializer.Meta.fields]. *)
Definition registration_fields : list string :=
  ["email"; "password"; "password2"; "first_name"; "last_name"; "phone_number";
   "user_type"].

(** Fields that must be present: [password] and [password2]
    ([required=True]) and [first_name], [last_name] ([extra_kwargs]). *)
Definition registration_required : list string :=
  ["password"; "password2"; "first_name"; "last_name"].

Definition registration_required_present (attrs : Payload) : bool :=
  forallb (fun k => match payload_lookup k attrs with Some _ => true | None => false end)
    registration_required.

(** [validated_data.pop('password2')]. *)
Definition pop_key (k : string) (d : Payload) : Payload :=
  filter (fun kv => negb (String.eqb (fst kv) k)) d.

Inductive RegBody :=
| RegCreated (user : UserView) (refresh access : string) (message : string)
| RegFieldErrors
| RegErrors (errors : list (string * string))
| RegServerError.

Record RegResponse := mkRegResponse { reg_status : Z; reg_body : RegBody }.

Section Registration.

(** [model_field_run_validation k v] is the run of the field that
    [ModelSerializer] builds for the model field [k] of [users/models.py]
    ([email], [first_name], [last_name], [phone_number], [user_type]): the
    internal value, or [None] for a field error. [validate_password] is
    Django's password validation. [fields_valid] holds the remaining checks
    of the model on the internal values (such as a unique email);
    [create_user] is [User.objects.create_user]; [issue_tokens] gives
    [str(refresh)] and [str(refresh.access_token)]. *)
Variable model_field_run_validation : string -> jvalue -> option jvalue.
Variable validate_password : string -> bool.
Variable fields_valid : DB -> Payload -> bool.
Variable create_user : Payload -> DB -> User * DB.
Variable issue_tokens : User -> string * string.

(** The run of the declared field [k]: [password] is a [CharField] with
    [validators=[validate_password]], [password2] a plain [CharField]. *)
Definition registration_run_validation (k : string) (v : jvalue) : option jvalue :=
  if String.eqb k "password" then
    match char_field_run_validation v with
    | Some s => if validate_password s then Some (JStr s) else None
    | None => None
    end
  else if String.eqb k "password2" then option_map JStr (char_field_run_validation v)
  else model_field_run_validation k v.

(** [Serializer.to_internal_value]: the internal values of the declared
    fields present in the data, in the declared order; [None] when a field
    fails. Other keys are dropped. *)
Fixpoint collect_fields (fs : list string) (data : Payload) : option Payload :=
  match fs with
  | [] => Some []
  | k :: fs' =>
      match collect_fields fs' data with
      | None => None
      | Some rest =>
          match payload_lookup k data with
          | None => Some rest
          | Some v =>
              match registration_run_validation k v with
              | Some v' => Some ((k, v') :: rest)
              | None => None
              end
          end
      end
  end.

Definition registration_attrs (data : Payload) : option Payload :=
  collect_fields registration_fields data.

(** [UserViewSet.create]: [is_valid(raise_exception=True)] (the field runs,
    then [UserRegistrationSerializer.validate] on the internal values), then
    [save()], which runs [create]. *)
Definition user_create (data : Payload) (d : DB) : RegResponse * DB :=
  match registration_attrs data with
  | None => (mkRegResponse HTTP_400_BAD_REQUEST RegFieldErrors, d)
  | Some attrs =>
      if negb (registration_required_present attrs && fields_valid d attrs) then
        (mkRegResponse HTTP_400_BAD_REQUEST RegFieldErrors, d)
      else
        match payload_lookup "password" attrs, payload_lookup "password2" attrs with
        | Some p, Some p2 =>
            if jvalue_eqb p p2 then
              let validated_data := pop_key "password2" attrs in
              let (user, d') := create_user validated_data d in
              let (refresh, access) := issue_tokens user in
              (mkRegResponse HTTP_201_CREATED
                 (RegCreated (serialize_user user) refresh access
                    "User registered successfully"), d')
            else
              (mkRegResponse HTTP_400_BAD_REQUEST
                 (RegErrors [("password", "Password fields didn't match.")]), d)
        | _, _ => (mkRegResponse HTTP_500_INTERNAL_SERVER_ERROR RegServerError, d)
        end
  end.

End Registration.

(** Requests that only read the store. *)
Definition read_only_request (req : Request) : bool :=
  match req with
  | RiderList | RiderRetrieve _ | RiderMyProfile | RiderAvailable
  | PassengerList | PassengerRetrieve _ | PassengerMyProfile => true
  | _ => false
  end.

(** ** Sample data *)

Definition demo_to_decimal (v : jvalue) : option Z :=
  match v with JNum z => Some z | _ => None end.

Definition demo_rider_defaults : Rider :=
  mkRider 0 0 "" "" "" "" "pending" "" false None None 0 0 0 0 0.

Definition demo_passenger_defaults : Passenger :=
  mkPassenger 0 0 "" "" "" "" "en" "" false 0 0.

Definition demo_required_ok (_ : Payload) : bool := true.

Definition user_ann : User := mkUser 1 "ann@example.com" "Ann" "Lee" "0700" "rider" 0 false.
Definition user_bob : User := mkUser 2 "bob@example.com" "Bob" "Ngo" "0701" "rider" 0 false.
Definition user_cat : User := mkUser 3 "cat@example.com" "Cat" "Kim" "0702" "passenger" 0 false.
Definition user_admin : User := mkUser 4 "ops@example.com" "Ops" "Team" "0703" "admin" 0 true.

(** Rider A: available and approved; rider B: approved, not available. *)
Definition rider_a : Rider :=
  mkRider 10 1 "" "LIC-A" "" "" "approved" "" true (Some 1%Z) (Some 2%Z) 0 0 0 0 0.
Definition rider_b : Rider :=
  mkRider 11 2 "" "LIC-B" "" "" "approved" "" false None None 0 0 0 0 0.

Definition demo_db : DB :=
  mkDB [user_ann; user_bob; user_cat; user_admin] [] [rider_a; rider_b] 12.

Definition demo_state : State := mkState demo_db [].

(** [demo_state] after a first [available_riders] call at time 0. *)
Definition filled_state : State := snd (available_riders 0 demo_state).

(** A store where no rider is both available and approved. *)
Definition no_available_state : State :=
  mkState (mkDB [user_ann; user_bob; user_cat; user_admin] [] [rider_b] 12) [].

(** Four requests: the cache is filled at 0, B becomes available through
    the generic update path at 100, then two reads 60 seconds apart. *)
Definition stale_trace : list (User * Z * Request) :=
  [(user_cat, 0%Z, RiderAvailable);
   (user_bob, 100%Z, RiderPartialUpdate 11 [("is_available", JBool true)]);
   (user_cat, 250%Z, RiderAvailable);
   (user_cat, 310%Z, RiderAvailable)].

Definition run_demo (reqs : list (User * Z * Request)) (st : State)
  : State * list Response :=
  run demo_to_decimal demo_rider_defaults demo_passenger_defaults demo_required_ok
    demo_required_ok reqs st.

(** A store with Cat's passenger profile. *)
Definition passenger_cat : Passenger :=
  mkPassenger 20 3 "P-20" "cash" "KG 7 Ave" "" "en" "0788" false 0 0.

Definition passenger_state : State :=
  mkState (mkDB [user_ann; user_bob; user_cat; user_admin] [passenger_cat]
             [rider_a; rider_b] 21) [].

(** Registration collaborators for the examples: the model fields are
    stripped strings, a password needs at least 8 characters. *)
Definition demo_model_field_run_validation (_ : string) (v : jvalue) : option jvalue :=
  match v with JStr s => Some (JStr (py_strip s)) | _ => None end.

Definition demo_validate_password (p : string) : bool := Nat.leb 8 (String.length p).

Definition demo_fields_valid (_ : DB) (_ : Payload) : bool := true.

Definition demo_create_user (data : Payload) (d : DB) : User * DB :=
  let e := match payload_lookup "email" data with Some (JStr s) => s | _ => "" end in
  let u := mkUser (next_pk d) e "" "" "" "passenger" 0 false in
  (u, mkDB (app (users d) [u]) (passengers d) (riders d) (S (next_pk d))).

Definition demo_issue_tokens (_ : User) : string * string := ("refresh-token", "access-token").

(** ** Cache lemmas *)

Lemma cache_lookup_delete_same (k : string) (c : Cache) :
  cache_lookup k (cache_delete k c) = None.
Proof.
  induction c as [|[k' e] c IH]; simpl; [reflexivity|].
  destruct (String.eqb k k') eqn:Hk; simpl.
  - exact IH.
  - rewrite Hk. exact IH.
Qed.

Lemma cache_lookup_set_same (k : string) (v : list RiderView) (timeout now : Z)
  (c : Cache) :
  cache_lookup k (cache_set k v timeout now c) = Some (v, (now + timeout)%Z).
Proof. unfold cache_set; simpl; rewrite String.eqb_refl; reflexivity. Qed.

Lemma cache_get_set_same (k : string) (v : list RiderView) (now t : Z) (c : Cache) :
  cache_get k t (cache_set k v 300 now c) =
  if Z.ltb t (now + 300) then Some v else None.
Proof. unfold cache_get; rewrite cache_lookup_set_same; reflexivity. Qed.

Lemma in_available_filter (d : DB) (r : Rider) :
  In r (available_filter d) <->
  In r (riders d) /\ is_available r = true /\ verification_status r = "approved".
Proof.
  unfold available_filter; rewrite filter_In.
  rewrite andb_true_iff, String.eqb_eq; tauto.
Qed.

Lemma available_riders_hit (now : Z) (st : State) (v : list RiderView) :
  cache_get available_riders_key now (cache st) = Some v ->
  available_riders now st = (mkResponse HTTP_200_OK (BRiders v), st).
Proof. intros H; unfold available_riders; rewrite H; reflexivity. Qed.

Lemma available_riders_miss (now : Z) (st : State) :
  cache_get available_riders_key now (cache st) = None ->
  available_riders now st =
  (mkResponse HTTP_200_OK
     (BRiders (map (serialize_rider (db st)) (available_filter (db st)))),
   mkState (db st)
     (cache_set available_riders_key
        (map (serialize_rider (db st)) (available_filter (db st))) 300 now (cache st))).
Proof. intros H; unfold available_riders; rewrite H; reflexivity. Qed.

(** ** Claims *)

(** C1: [available_riders] reads through the cache slot ["available_riders"].
    When the slot holds a live entry at [now], the response is that entry
    verbatim and nothing changes. Otherwise the response is the
    serialization of exactly the riders with [is_available = true] and
    [verification_status = "approved"]; the store is untouched and the slot
    then holds that serialization until [now + 300] and not after. *)
Theorem available_riders_read_through (now : Z) (st : State) :
  (forall r, In r (available_filter (db st)) <->
     In r (riders (db st)) /\ is_available r = true /\
     verification_status r = "approved") /\
  match cache_get available_riders_key now (cache st) with
  | Some v => available_riders now st = (mkResponse HTTP_200_OK (BRiders v), st)
  | None =>
      let data := map (serialize_rider (db st)) (available_filter (db st)) in
      fst (available_riders now st) = mkResponse HTTP_200_OK (BRiders data) /\
      db (snd (available_riders now st)) = db st /\
      (forall t, cache_get available_riders_key t (cache (snd (available_riders now st)))
                 = if Z.ltb t (now + 300) then Some data else None)
  end.
Proof.
  split; [intro r; apply in_available_filter|].
  destruct (cache_get available_riders_key now (cache st)) as [v|] eqn:Hc.
  - apply available_riders_hit; exact Hc.
  - rewrite (available_riders_miss now st Hc); simpl.
    split; [reflexivity|split; [reflexivity|]].
    intro t; apply cache_get_set_same.
Qed.

(** C9: with no available and approved rider, the empty serialization is
    cached like any other: the first call (a miss) stores [[]] for 300
    seconds, and a call within that window is a hit that returns [[]] and
    changes nothing, since the test is [cached_data is not None]. *)
Theorem available_riders_caches_empty (now t2 : Z) (st : State) :
  available_filter (db st) = [] ->
  cache_get available_riders_key now (cache st) = None ->
  (now <= t2 < now + 300)%Z ->
  fst (available_riders now st) = mkResponse HTTP_200_OK (BRiders []) /\
  cache_lookup available_riders_key (cache (snd (available_riders now st)))
    = Some ([], (now + 300)%Z) /\
  recomputes t2 (snd (available_riders now st)) = false /\
  available_riders t2 (snd (available_riders now st)) =
    (mkResponse HTTP_200_OK (BRiders []), snd (available_riders now st)).
Proof.
  intros Hempty Hmiss Ht.
  rewrite (available_riders_miss now st Hmiss), Hempty; simpl.
  assert (Hget : cache_get available_riders_key t2
                   (cache_set available_riders_key [] 300 now (cache st)) = Some []).
  { rewrite cache_get_set_same.
    destruct (Z.ltb_spec t2 (now + 300)); [reflexivity|lia]. }
  split; [reflexivity|].
  split; [first [reflexivity | apply cache_lookup_set_same]|].
  split.
  - unfold recomputes; simpl; rewrite Hget; reflexivity.
  - apply available_riders_hit; exact Hget.
Qed.

(** C2: after a successful ([200]) [update_location] the slot is empty, so
    the next [available_riders] call, at any time, is a miss that
    recomputes the list from the store. *)
Theorem update_location_invalidates (to_decimal : jvalue -> option Z) (u : User)
  (pk : nat) (data : Payload) (now : Z) (st st' : State) (resp : Response) :
  update_location to_decimal u pk data now st = (resp, st') ->
  status_code resp = HTTP_200_OK ->
  cache_lookup available_riders_key (cache st') = None /\
  (forall t, recomputes t st' = true /\
     available_riders t st' =
     (mkResponse HTTP_200_OK
        (BRiders (map (serialize_rider (db st')) (available_filter (db st')))),
      mkState (db st')
        (cache_set available_riders_key
           (map (serialize_rider (db st')) (available_filter (db st'))) 300 t
           (cache st')))).
Proof.
  unfold update_location.
  destruct (rider_get_object u pk (db st)) as [rider|];
    [|intros H; inversion H; subst; discriminate].
  destruct (negb (Nat.eqb (rider_user rider) (user_id u)) && negb (is_staff u));
    [intros H; inversion H; subst; discriminate|].
  destruct (assign_coordinate to_decimal _ (current_latitude rider)) as [lat|];
    [|intros H; inversion H; subst; discriminate].
  destruct (assign_coordinate to_decimal _ (current_longitude rider)) as [lon|];
    [|intros H; inversion H; subst; discriminate].
  destruct (rider_save now _ (db st)) as [rider2 d'].
  intros H _; inversion H; subst; clear H; simpl.
  assert (Hnone : cache_lookup available_riders_key
                    (cache_delete available_riders_key (cache st)) = None)
    by apply cache_lookup_delete_same.
  split; [exact Hnone|].
  intro t.
  assert (Hg : cache_get available_riders_key t
                 (cache_delete available_riders_key (cache st)) = None)
    by (unfold cache_get; rewrite Hnone; reflexivity).
  split.
  - unfold recomputes; simpl; rewrite Hg; reflexivity.
  - apply available_riders_miss; exact Hg.
Qed.

(** ** Which requests touch the cache *)

Ltac split_view_matches :=
  repeat match goal with
  | |- context [match ?x with _ => _ end] => destruct x
  end.

Lemma handle_cache_neutral to_decimal rider_defaults passenger_defaults
  rider_required_ok passenger_required_ok (u : User) (now : Z) (req : Request)
  (st : State) :
  cache_neutral req = true ->
  cache (snd (handle to_decimal rider_defaults passenger_defaults rider_required_ok
                passenger_required_ok u now req st)) = cache st.
Proof.
  destruct req; simpl; intros Hn; try discriminate;
  unfold rider_list, rider_retrieve, rider_create, rider_partial_update,
    rider_destroy, rider_my_profile, passenger_list, passenger_retrieve,
    passenger_create, passenger_partial_update, passenger_destroy,
    passenger_my_profile;
  split_view_matches; reflexivity.
Qed.

Lemma run_keeps_entry to_decimal rider_defaults passenger_defaults
  rider_required_ok passenger_required_ok (reqs : list (User * Z * Request))
  (st : State) (v : list RiderView) (e t2 : Z) :
  (t2 < e)%Z ->
  Forall (between_calls t2) reqs ->
  cache_lookup available_riders_key (cache st) = Some (v, e) ->
  cache_lookup available_riders_key
    (cache (fst (run to_decimal rider_defaults passenger_defaults rider_required_ok
                   passenger_required_ok reqs st))) = Some (v, e).
Proof.
  intros Hte Hall; revert st.
  induction Hall as [|[[u t] req] reqs Hx Hall IH]; intros st Hst; simpl; [exact Hst|].
  destruct Hx as [Ht Hreq].
  destruct (handle to_decimal rider_defaults passenger_defaults rider_required_ok
              passenger_required_ok u t req st) as [resp st1] eqn:Hh.
  destruct (run to_decimal rider_defaults passenger_defaults rider_required_ok
              passenger_required_ok reqs st1) as [st2 resps] eqn:Hr.
  simpl.
  assert (Hst1 : cache_lookup available_riders_key (cache st1) = Some (v, e)).
  { destruct (cache_neutral req) eqn:Hn.
    - pose proof (handle_cache_neutral to_decimal rider_defaults passenger_defaults
                    rider_required_ok passenger_required_ok u t req st Hn) as Hc.
      rewrite Hh in Hc; simpl in Hc; rewrite Hc; exact Hst.
    - destruct req; try discriminate; try contradiction.
      simpl in Hh.
      assert (Hg : cache_get available_riders_key t (cache st) = Some v).
      { unfold cache_get; rewrite Hst.
        destruct (Z.ltb_spec t e); [reflexivity|lia]. }
      rewrite (available_riders_hit t st v Hg) in Hh.
      inversion Hh; subst; exact Hst. }
  specialize (IH st1 Hst1); rewrite Hr in IH; exact IH.
Qed.

(** C8, as stated, fails: the 300-second window runs from when the entry was
    stored, not from the first of the two calls. In [stale_trace] the slot
    is filled at 0 with [[A]], B becomes available at 100 without any
    location update, the call at 250 is a hit returning [[A]], and the call
    at 310 (60 seconds later, nothing in between) finds the entry expired,
    recomputes, and returns [[A; B]]. *)
Lemma available_riders_twice_counterexample :
  (250 <= 310 < 250 + 300)%Z /\
  match snd (run_demo stale_trace demo_state) with
  | [_; _; r3; r4] =>
      r3 <> r4 /\
      r3 = mkResponse HTTP_200_OK (BRiders [serialize_rider demo_db rider_a])
  | _ => False
  end.
Proof.
  split; [lia|].
  vm_compute. split; [discriminate|reflexivity].
Qed.

(** C8, amended: take two [available_riders] calls at [t1 <= t2 < t1 + 300]
    with any requests other than location updates (at times up to [t2]) in
    between. If the first call recomputes, the second is a hit returning the
    identical payload. If the first call is a hit on an entry still live at
    [t2], neither call recomputes and both return that entry. In every case
    at most one of the two calls recomputes. *)
Theorem available_riders_twice_within_ttl to_decimal rider_defaults
  passenger_defaults rider_required_ok passenger_required_ok
  (t1 t2 : Z) (st : State) (reqs : list (User * Z * Request)) :
  (t1 <= t2 < t1 + 300)%Z ->
  Forall (between_calls t2) reqs ->
  let st1 := snd (available_riders t1 st) in
  let st2 := fst (run to_decimal rider_defaults passenger_defaults rider_required_ok
                    passenger_required_ok reqs st1) in
  (recomputes t1 st = false \/ recomputes t2 st2 = false) /\
  (recomputes t1 st = true ->
     fst (available_riders t2 st2) = fst (available_riders t1 st)) /\
  (forall v e, cache_lookup available_riders_key (cache st) = Some (v, e) ->
     (t2 < e)%Z ->
     recomputes t1 st = false /\ recomputes t2 st2 = false /\
     fst (available_riders t1 st) = mkResponse HTTP_200_OK (BRiders v) /\
     fst (available_riders t2 st2) = mkResponse HTTP_200_OK (BRiders v)).
Proof.
  intros Ht Hall st1 st2.
  (* the entry the first call leaves in the slot survives to [t2] *)
  assert (Hmiss : recomputes t1 st = true ->
            recomputes t2 st2 = false /\
            fst (available_riders t2 st2) = fst (available_riders t1 st)).
  { unfold recomputes; intro Hr.
    destruct (cache_get available_riders_key t1 (cache st)) eqn:Hc; [discriminate|].
    set (data := map (serialize_rider (db st)) (available_filter (db st))).
    assert (Hst1 : cache_lookup available_riders_key (cache st1) = Some (data, (t1 + 300)%Z)).
    { unfold st1; rewrite (available_riders_miss t1 st Hc).
      apply cache_lookup_set_same. }
    pose proof (run_keeps_entry to_decimal rider_defaults passenger_defaults
                  rider_required_ok passenger_required_ok reqs st1 data
                  (t1 + 300) t2 ltac:(lia) Hall Hst1) as Hst2.
    fold st2 in Hst2.
    assert (Hg : cache_get available_riders_key t2 (cache st2) = Some data).
    { unfold cache_get; rewrite Hst2. destruct (Z.ltb_spec t2 (t1 + 300)); [reflexivity|lia]. }
    rewrite Hg; split; [reflexivity|].
    rewrite (available_riders_hit t2 st2 data Hg), (available_riders_miss t1 st Hc).
    reflexivity. }
  split; [|split].
  - destruct (recomputes t1 st) eqn:Hr; [right; apply Hmiss; reflexivity|left; reflexivity].
  - intro Hr; apply Hmiss; exact Hr.
  - intros v e Hl He.
    assert (Hg1 : cache_get available_riders_key t1 (cache st) = Some v).
    { unfold cache_get; rewrite Hl. destruct (Z.ltb_spec t1 e); [reflexivity|lia]. }
    assert (Hs1 : st1 = st) by (unfold st1; rewrite (available_riders_hit t1 st v Hg1); reflexivity).
    pose proof (run_keeps_entry to_decimal rider_defaults passenger_defaults
                  rider_required_ok passenger_required_ok reqs st1 v e t2 He Hall
                  ltac:(rewrite Hs1; exact Hl)) as Hst2.
    fold st2 in Hst2.
    assert (Hg2 : cache_get available_riders_key t2 (cache st2) = Some v).
    { unfold cache_get; rewrite Hst2. destruct (Z.ltb_spec t2 e); [reflexivity|lia]. }
    unfold recomputes; rewrite Hg1, Hg2.
    rewrite (available_riders_hit t1 st v Hg1), (available_riders_hit t2 st2 v Hg2).
    repeat split.
Qed.

Lemma rider_get_object_other_first (u : User) (a b : Rider) (us : list User)
  (ps : list Passenger) (n : nat) :
  rider_pk a <> rider_pk b ->
  rider_user b = user_id u ->
  rider_get_object u (rider_pk b) (mkDB us ps [a; b] n) = Some b.
Proof.
  intros Hab Hb; unfold rider_get_object, rider_get_queryset; simpl.
  assert (Hne : Nat.eqb (rider_pk a) (rider_pk b) = false) by (apply Nat.eqb_neq; exact Hab).
  rewrite Hb, Nat.eqb_refl.
  destruct (is_staff u); simpl.
  - rewrite Hne, Nat.eqb_refl; reflexivity.
  - destruct (Nat.eqb (rider_user a) (user_id u)); simpl;
      [rewrite Hne|]; rewrite Nat.eqb_refl; reflexivity.
Qed.

(** C3: no request except [available_riders] and [update_location] touches
    the cache; in particular the generic update path never deletes the
    slot. Scenario: riders A (available, approved) and B (not available,
    approved); the slot is filled at [t0] with [[A]]; B's owner sets
    [is_available = true] through [partial_update] at [t1]; a read at [t2]
    within 300 seconds of [t0] still returns [[A]] only, although B is now
    available in the store. *)
Theorem generic_update_keeps_stale_cache (to_decimal : jvalue -> option Z)
  rider_defaults passenger_defaults rider_required_ok passenger_required_ok
  (us : list User) (ps : list Passenger) (n : nat) (a b : Rider) (owner_b : User)
  (c0 : Cache) (t0 t1 t2 : Z) :
  is_available a = true -> verification_status a = "approved" ->
  is_available b = false -> verification_status b = "approved" ->
  rider_pk a <> rider_pk b -> rider_user b = user_id owner_b ->
  cache_get available_riders_key t0 c0 = None ->
  (t0 <= t1 <= t2)%Z -> (t2 < t0 + 300)%Z ->
  let st0 := mkState (mkDB us ps [a; b] n) c0 in
  let st1 := snd (available_riders t0 st0) in
  let upd := rider_partial_update to_decimal owner_b (rider_pk b)
               [("is_available", JBool true)] t1 st1 in
  let st2 := snd upd in
  (forall u now req st,
     cache_neutral req = true ->
     cache (snd (handle to_decimal rider_defaults passenger_defaults
                   rider_required_ok passenger_required_ok u now req st)) = cache st) /\
  fst (available_riders t0 st0) =
    mkResponse HTTP_200_OK (BRiders [serialize_rider (db st0) a]) /\
  status_code (fst upd) = HTTP_200_OK /\
  In (rider_set_updated_at (rider_set_is_available b true) t1) (riders (db st2)) /\
  cache st2 = cache st1 /\
  fst (available_riders t2 st2) =
    mkResponse HTTP_200_OK (BRiders [serialize_rider (db st0) a]).
Proof.
  intros Ha1 Ha2 Hb1 Hb2 Hab Hown Hc0 Ht12 Ht2 st0 st1 upd st2.
  assert (Hfilter : available_filter (db st0) = [a]).
  { unfold available_filter; simpl. rewrite Ha1, Ha2, Hb1; reflexivity. }
  assert (Hst1 : st1 = mkState (db st0)
                   (cache_set available_riders_key [serialize_rider (db st0) a] 300 t0 c0)).
  { unfold st1; rewrite (available_riders_miss t0 st0 Hc0), Hfilter; reflexivity. }
  assert (Hobj : rider_get_object owner_b (rider_pk b) (db st1) = Some b).
  { rewrite Hst1; apply rider_get_object_other_first; assumption. }
  assert (Hupd : upd =
    (mkResponse HTTP_200_OK
       (BRider (serialize_rider
                  (db_set_riders (db st1)
                     (replace_rider (rider_set_updated_at (rider_set_is_available b true) t1)
                        (riders (db st1))))
                  (rider_set_updated_at (rider_set_is_available b true) t1))),
     mkState (db_set_riders (db st1)
                (replace_rider (rider_set_updated_at (rider_set_is_available b true) t1)
                   (riders (db st1))))
             (cache st1))).
  { unfold upd, rider_partial_update; rewrite Hobj; reflexivity. }
  assert (Hc2 : cache st2 = cache st1) by (unfold st2; rewrite Hupd; reflexivity).
  split; [intros; apply handle_cache_neutral; assumption|].
  split; [rewrite (available_riders_miss t0 st0 Hc0), Hfilter; reflexivity|].
  split; [rewrite Hupd; reflexivity|].
  split.
  { unfold st2; rewrite Hupd; simpl; rewrite Hst1; simpl.
    rewrite Nat.eqb_refl.
    destruct (Nat.eqb (rider_pk a) (rider_pk b)); simpl; auto. }
  split; [exact Hc2|].
  assert (Hg : cache_get available_riders_key t2 (cache st2) =
               Some [serialize_rider (db st0) a]).
  { rewrite Hc2, Hst1; simpl cache; rewrite cache_get_set_same.
    destruct (Z.ltb_spec t2 (t0 + 300)); [reflexivity|lia]. }
  rewrite (available_riders_hit t2 st2 _ Hg); reflexivity.
Qed.

Lemma find_some_in {A : Type} (f : A -> bool) (l : list A) (x : A) :
  find f l = Some x -> In x l /\ f x = true.
Proof.
  induction l as [|y l IH]; simpl; [discriminate|].
  destruct (f y) eqn:Hy; intro H.
  - inversion H; subst; auto.
  - destruct (IH H); auto.
Qed.

Lemma in_rider_queryset_nonstaff (u : User) (d : DB) (r : Rider) :
  is_staff u = false ->
  (In r (rider_get_queryset u d) <-> In r (riders d) /\ rider_user r = user_id u).
Proof.
  intros Hs; unfold rider_get_queryset; rewrite Hs, filter_In, Nat.eqb_eq; tauto.
Qed.

Lemma in_passenger_queryset_nonstaff (u : User) (d : DB) (p : Passenger) :
  is_staff u = false ->
  (In p (passenger_get_queryset u d) <->
   In p (passengers d) /\ passenger_user p = user_id u).
Proof.
  intros Hs; unfold passenger_get_queryset; rewrite Hs, filter_In, Nat.eqb_eq; tauto.
Qed.

(** C4: [list] returns the serialization of [get_queryset]. For a staff
    requester that is every rider (every passenger); for anyone else it is
    exactly the profiles the requester owns, and [retrieve] either answers
    404 or returns a profile the requester owns. *)
Theorem profile_list_access_policy (u : User) (st : State) :
  rider_list u st =
    (mkResponse HTTP_200_OK
       (BRiders (map (serialize_rider (db st)) (rider_get_queryset u (db st)))), st) /\
  passenger_list u st =
    (mkResponse HTTP_200_OK
       (BPassengers (map (serialize_passenger (db st))
                       (passenger_get_queryset u (db st)))), st) /\
  if is_staff u then
    rider_get_queryset u (db st) = riders (db st) /\
    passenger_get_queryset u (db st) = passengers (db st)
  else
    (forall r, In r (rider_get_queryset u (db st)) <->
               In r (riders (db st)) /\ rider_user r = user_id u) /\
    (forall p, In p (passenger_get_queryset u (db st)) <->
               In p (passengers (db st)) /\ passenger_user p = user_id u) /\
    (forall pk, rider_retrieve u pk st = (not_found, st) \/
       exists r, In r (riders (db st)) /\ rider_user r = user_id u /\
         rider_retrieve u pk st =
           (mkResponse HTTP_200_OK (BRider (serialize_rider (db st) r)), st)) /\
    (forall pk, passenger_retrieve u pk st = (not_found, st) \/
       exists p, In p (passengers (db st)) /\ passenger_user p = user_id u /\
         passenger_retrieve u pk st =
           (mkResponse HTTP_200_OK (BPassenger (serialize_passenger (db st) p)), st)).
Proof.
  split; [reflexivity|split; [reflexivity|]].
  destruct (is_staff u) eqn:Hs.
  - unfold rider_get_queryset, passenger_get_queryset; rewrite Hs; split; reflexivity.
  - split; [intro r; apply in_rider_queryset_nonstaff; exact Hs|].
    split; [intro p; apply in_passenger_queryset_nonstaff; exact Hs|].
    split.
    + intro pk; unfold rider_retrieve.
      destruct (rider_get_object u pk (db st)) as [r|] eqn:Ho; [right|left; reflexivity].
      apply find_some_in in Ho; destruct Ho as [Hin _].
      apply (in_rider_queryset_nonstaff u (db st) r Hs) in Hin.
      exists r; tauto.
    + intro pk; unfold passenger_retrieve.
      destruct (passenger_get_object u pk (db st)) as [p|] eqn:Ho; [right|left; reflexivity].
      apply find_some_in in Ho; destruct Ho as [Hin _].
      apply (in_passenger_queryset_nonstaff u (db st) p Hs) in Hin.
      exists p; tauto.
Qed.

(** C5: a successful ([201]) create appends one row whose owner is the
    requester, whatever the payload holds: the serializer's [user] is
    read-only, unknown keys such as [owner] are dropped, and
    [perform_create] passes [user=self.request.user] to [save]. *)
Theorem create_stamps_requester (to_decimal : jvalue -> option Z) rider_defaults
  passenger_defaults rider_required_ok passenger_required_ok
  (u : User) (data : Payload) (now : Z) (st : State) :
  (status_code (fst (rider_create to_decimal rider_defaults rider_required_ok
                       u data now st)) = HTTP_201_CREATED ->
   exists r,
     riders (db (snd (rider_create to_decimal rider_defaults rider_required_ok
                        u data now st))) = (riders (db st) ++ [r])%list /\
     rider_user r = user_id u) /\
  (status_code (fst (passenger_create passenger_defaults passenger_required_ok
                       u data now st)) = HTTP_201_CREATED ->
   exists p,
     passengers (db (snd (passenger_create passenger_defaults passenger_required_ok
                            u data now st))) = (passengers (db st) ++ [p])%list /\
     passenger_user p = user_id u).
Proof.
  split.
  - unfold rider_create.
    destruct (negb (rider_required_ok data)); [discriminate|].
    destruct (apply_rider_fields to_decimal rider_defaults data) as [validated|];
      [|discriminate].
    destruct (existsb _ (riders (db st))); [discriminate|].
    intros _; simpl.
    eexists; split; reflexivity.
  - unfold passenger_create.
    destruct (negb (passenger_required_ok data)); [discriminate|].
    destruct (apply_passenger_fields passenger_defaults data) as [validated|];
      [|discriminate].
    destruct (existsb _ (passengers (db st))); [discriminate|].
    intros _; simpl.
    eexists; split; reflexivity.
Qed.

Lemma nodup_map_inj {A B : Type} (f : A -> B) (l : list A) (x y : A) :
  NoDup (map f l) -> In x l -> In y l -> f x = f y -> x = y.
Proof.
  induction l as [|a l IH]; simpl; [contradiction|].
  intros Hnd Hx Hy Hf; inversion Hnd as [|? ? Hnotin Hnd']; subst.
  destruct Hx as [<-|Hx], Hy as [<-|Hy]; auto.
  - exfalso; apply Hnotin; rewrite Hf; apply in_map; exact Hy.
  - exfalso; apply Hnotin; rewrite <- Hf; apply in_map; exact Hx.
Qed.

(** C6 (the code disagrees with its own 403 branch): a non-staff requester
    who does not own rider [r] never reaches the ownership check of
    [update_location]. [get_object] looks the primary key up in
    [get_queryset], which holds only the requester's own riders, so the
    request ends in [Http404]: status 404 with DRF's [Not found.] body.
    Store and cache are unchanged. *)
Theorem update_location_non_owner_not_found (to_decimal : jvalue -> option Z)
  (u : User) (r : Rider) (data : Payload) (now : Z) (st : State) :
  is_staff u = false ->
  In r (riders (db st)) ->
  rider_user r <> user_id u ->
  NoDup (map rider_pk (riders (db st))) ->
  update_location to_decimal u (rider_pk r) data now st = (not_found, st).
Proof.
  intros Hs Hin Hown Hnd; unfold update_location.
  destruct (rider_get_object u (rider_pk r) (db st)) as [r'|] eqn:Ho; [|reflexivity].
  exfalso.
  apply find_some_in in Ho; destruct Ho as [Hq Hpk].
  apply Nat.eqb_eq in Hpk.
  apply (in_rider_queryset_nonstaff u (db st) r' Hs) in Hq; destruct Hq as [Hin' Hown'].
  assert (r' = r) as -> by (apply (nodup_map_inj rider_pk (riders (db st))); assumption).
  contradiction.
Qed.

Lemma filter_none {A : Type} (f : A -> bool) (l : list A) :
  (forall x, In x l -> f x = false) -> filter f l = [].
Proof.
  induction l as [|a l IH]; simpl; intros H; [reflexivity|].
  rewrite (H a (or_introl eq_refl)); apply IH; intros x Hx; apply H; right; exact Hx.
Qed.

(** C7: a requester with no rider profile gets 404 with
    [{error: "Rider profile not found"}] from [my_profile] (the caught
    [DoesNotExist]), and the same for passengers; nothing changes. *)
Theorem my_profile_missing_not_found (u : User) (st : State) :
  ((forall r, In r (riders (db st)) -> rider_user r <> user_id u) ->
   rider_my_profile u st =
     (mkResponse HTTP_404_NOT_FOUND (BError "Rider profile not found"), st)) /\
  ((forall p, In p (passengers (db st)) -> passenger_user p <> user_id u) ->
   passenger_my_profile u st =
     (mkResponse HTTP_404_NOT_FOUND (BError "Passenger profile not found"), st)).
Proof.
  split; intros H.
  - unfold rider_my_profile; rewrite filter_none; [reflexivity|].
    intros r Hr; apply Nat.eqb_neq, H, Hr.
  - unfold passenger_my_profile; rewrite filter_none; [reflexivity|].
    intros p Hp; apply Nat.eqb_neq, H, Hp.
Qed.

Lemma update_location_authorized (to_decimal : jvalue -> option Z) (u : User)
  (r : Rider) (data : Payload) (now : Z) (st : State) (lat lon : option Z) :
  rider_get_object u (rider_pk r) (db st) = Some r ->
  (rider_user r = user_id u \/ is_staff u = true) ->
  assign_coordinate to_decimal (py_get data "current_latitude") (current_latitude r)
    = Some lat ->
  assign_coordinate to_decimal (py_get data "current_longitude") (current_longitude r)
    = Some lon ->
  update_location to_decimal u (rider_pk r) data now st =
  location_saved (rider_set_current_longitude (rider_set_current_latitude r lat) lon)
    now st.
Proof.
  intros Ho Hauth Hlat Hlon; unfold update_location; rewrite Ho.
  assert (Hc : negb (Nat.eqb (rider_user r) (user_id u)) && negb (is_staff u) = false).
  { destruct Hauth as [H|H]; [rewrite H, Nat.eqb_refl|rewrite H, andb_false_r]; reflexivity. }
  rewrite Hc; simpl (current_latitude _); rewrite Hlat, Hlon; reflexivity.
Qed.



(** ** Instances of the claims on the sample data *)

(** C2: Ann moves her rider A after the slot was filled; the slot is gone
    and the next read at 25 recomputes. *)
Lemma update_location_invalidates_witness :
  let res := update_location demo_to_decimal user_ann 10
               [("current_latitude", JNum 7%Z)] 20 filled_state in
  status_code (fst res) = HTTP_200_OK /\
  cache_lookup available_riders_key (cache (snd res)) = None /\
  recomputes 25 (snd res) = true.
Proof.
  intro res.
  assert (H1 : update_location demo_to_decimal user_ann 10
                 [("current_latitude", JNum 7%Z)] 20 filled_state = (fst res, snd res))
    by (vm_compute; reflexivity).
  assert (H2 : status_code (fst res) = HTTP_200_OK) by (vm_compute; reflexivity).
  destruct (update_location_invalidates demo_to_decimal user_ann 10 _ 20 filled_state
              (snd res) (fst res) H1 H2) as [Hc Hr].
  split; [exact H2|split; [exact Hc|apply (Hr 25%Z)]].
Defined.

(** C3 on the sample store: A available, B not; Bob makes B available at
    100; the read at 250 still answers [[A]]. *)
Lemma generic_update_keeps_stale_cache_witness :
  fst (available_riders 250
         (snd (rider_partial_update demo_to_decimal user_bob 11
                 [("is_available", JBool true)] 100 filled_state))) =
  mkResponse HTTP_200_OK (BRiders [serialize_rider demo_db rider_a]).
Proof.
  pose proof (generic_update_keeps_stale_cache demo_to_decimal demo_rider_defaults
                demo_passenger_defaults demo_required_ok demo_required_ok
                [user_ann; user_bob; user_cat; user_admin] [] 12 rider_a rider_b user_bob
                [] 0 100 250 eq_refl eq_refl eq_refl eq_refl ltac:(simpl; lia) eq_refl
                ltac:(vm_compute; reflexivity) ltac:(lia) ltac:(lia)) as H.
  destruct H as (_ & _ & _ & _ & _ & H).
  exact H.
Defined.

(** C5: Cat submits [owner] and [user] set to Bob's id; both created rows
    belong to Cat. *)
Lemma create_stamps_requester_witness :
  let data := [("owner", JNum 2%Z); ("user", JNum 2%Z); ("passenger_id", JStr "P-1");
               ("license_number", JStr "LIC-C")] in
  (exists r,
     riders (db (snd (rider_create demo_to_decimal demo_rider_defaults demo_required_ok
                        user_cat data 5 demo_state))) = (riders demo_db ++ [r])%list /\
     rider_user r = user_id user_cat) /\
  (exists p,
     passengers (db (snd (passenger_create demo_passenger_defaults demo_required_ok
                            user_cat data 5 demo_state))) = (passengers demo_db ++ [p])%list /\
     passenger_user p = user_id user_cat).
Proof.
  intro data.
  destruct (create_stamps_requester demo_to_decimal demo_rider_defaults
              demo_passenger_defaults demo_required_ok demo_required_ok
              user_cat data 5 demo_state) as [H1 H2].
  split; [apply H1|apply H2]; vm_compute; reflexivity.
Defined.

(** C6 at the failing input: Ann (not staff) moves Bob's rider B. *)
Lemma update_location_non_owner_not_found_witness :
  update_location demo_to_decimal user_ann 11 [("current_latitude", JNum 9%Z)] 20
    filled_state = (not_found, filled_state) /\
  status_code not_found = HTTP_404_NOT_FOUND.
Proof.
  split; [|reflexivity].
  apply (update_location_non_owner_not_found demo_to_decimal user_ann rider_b
           [("current_latitude", JNum 9%Z)] 20 filled_state).
  - reflexivity.
  - vm_compute; auto.
  - simpl; lia.
  - vm_compute; repeat constructor; simpl; lia.
Defined.

(** C7: Cat has neither a rider nor a passenger profile. *)
Lemma my_profile_missing_not_found_witness :
  rider_my_profile user_cat demo_state =
    (mkResponse HTTP_404_NOT_FOUND (BError "Rider profile not found"), demo_state) /\
  passenger_my_profile user_cat demo_state =
    (mkResponse HTTP_404_NOT_FOUND (BError "Passenger profile not found"), demo_state).
Proof.
  destruct (my_profile_missing_not_found user_cat demo_state) as [H1 H2].
  split; [apply H1|apply H2]; intros x Hx; simpl in Hx.
  - destruct Hx as [<-|[<-|[]]]; simpl; lia.
  - destruct Hx.
Defined.

(** C8, amended: a miss at 0, Bob's update at 100, a hit at 250 with the
    same payload. *)
Lemma available_riders_twice_within_ttl_witness :
  let reqs := [(user_bob, 100%Z, RiderPartialUpdate 11 [("is_available", JBool true)])] in
  recomputes 0 demo_state = true /\
  fst (available_riders 250 (fst (run_demo reqs (snd (available_riders 0 demo_state))))) =
  fst (available_riders 0 demo_state).
Proof.
  intro reqs.
  assert (Hr : recomputes 0 demo_state = true) by (vm_compute; reflexivity).
  split; [exact Hr|].
  destruct (available_riders_twice_within_ttl demo_to_decimal demo_rider_defaults
              demo_passenger_defaults demo_required_ok demo_required_ok 0 250 demo_state
              reqs ltac:(lia) ltac:(repeat constructor; simpl; lia)) as [_ [H _]].
  exact (H Hr).
Defined.

(** C9: with no available rider the empty list is cached at 0 and served
    at 100 without recomputation. *)
Lemma available_riders_caches_empty_witness :
  recomputes 100 (snd (available_riders 0 no_available_state)) = false /\
  available_riders 100 (snd (available_riders 0 no_available_state)) =
    (mkResponse HTTP_200_OK (BRiders []), snd (available_riders 0 no_available_state)).
Proof.
  destruct (available_riders_caches_empty 0 100 no_available_state
              ltac:(vm_compute; reflexivity) ltac:(vm_compute; reflexivity)
              ltac:(lia)) as (_ & _ & H3 & H4).
  split; [exact H3|exact H4].
Defined.


(** ** Further properties of the view sets *)

Lemma apply_rider_field_read_only (to_decimal : jvalue -> option Z) (r r' : Rider)
  (k : string) (v : jvalue) :
  apply_rider_field to_decimal r k v = Some r' ->
  rider_pk r' = rider_pk r /\ rider_user r' = rider_user r /\
  average_rating r' = average_rating r /\ total_rides r' = total_rides r /\
  total_earnings r' = total_earnings r /\ r_created_at r' = r_created_at r /\
  r_updated_at r' = r_updated_at r.
Proof.
  unfold apply_rider_field, option_map; intros H.
  repeat match type of H with
         | context [match ?x with _ => _ end] => destruct x
         end;
  inversion H; subst; repeat split.
Qed.

Lemma apply_rider_fields_read_only (to_decimal : jvalue -> option Z) (d : Payload) :
  forall r r', apply_rider_fields to_decimal r d = Some r' ->
  rider_pk r' = rider_pk r /\ rider_user r' = rider_user r /\
  average_rating r' = average_rating r /\ total_rides r' = total_rides r /\
  total_earnings r' = total_earnings r /\ r_created_at r' = r_created_at r /\
  r_updated_at r' = r_updated_at r.
Proof.
  induction d as [|[k v] d IH]; simpl; intros r r' H.
  - inversion H; subst; repeat split.
  - destruct (apply_rider_field to_decimal r k v) as [r1|] eqn:H1; [|discriminate].
    apply apply_rider_field_read_only in H1.
    specialize (IH r1 r' H).
    destruct H1 as (? & ? & ? & ? & ? & ? & ?), IH as (? & ? & ? & ? & ? & ? & ?).
    repeat split; congruence.
Qed.

Lemma apply_passenger_field_read_only (p p' : Passenger) (k : string) (v : jvalue) :
  apply_passenger_field p k v = Some p' ->
  passenger_pk p' = passenger_pk p /\ passenger_user p' = passenger_user p /\
  p_created_at p' = p_created_at p /\ p_updated_at p' = p_updated_at p.
Proof.
  unfold apply_passenger_field, option_map; intros H.
  repeat match type of H with
         | context [match ?x with _ => _ end] => destruct x
         end;
  inversion H; subst; repeat split.
Qed.

Lemma apply_passenger_fields_read_only (d : Payload) :
  forall p p', apply_passenger_fields p d = Some p' ->
  passenger_pk p' = passenger_pk p /\ passenger_user p' = passenger_user p /\
  p_created_at p' = p_created_at p /\ p_updated_at p' = p_updated_at p.
Proof.
  induction d as [|[k v] d IH]; simpl; intros p p' H.
  - inversion H; subst; repeat split.
  - destruct (apply_passenger_field p k v) as [p1|] eqn:H1; [|discriminate].
    apply apply_passenger_field_read_only in H1.
    specialize (IH p1 p' H).
    destruct H1 as (? & ? & ? & ?), IH as (? & ? & ? & ?).
    repeat split; congruence.
Qed.

Lemma rider_get_object_in (u : User) (pk : nat) (d : DB) (x : Rider) :
  rider_get_object u pk d = Some x ->
  In x (riders d) /\ rider_pk x = pk /\ (is_staff u = true \/ rider_user x = user_id u).
Proof.
  intros H; apply find_some_in in H; destruct H as [Hq Hpk].
  apply Nat.eqb_eq in Hpk.
  unfold rider_get_queryset in Hq; destruct (is_staff u) eqn:Hs.
  - auto.
  - apply filter_In in Hq; destruct Hq as [Hq Ho]; apply Nat.eqb_eq in Ho; auto.
Qed.

Lemma passenger_get_object_in (u : User) (pk : nat) (d : DB) (x : Passenger) :
  passenger_get_object u pk d = Some x ->
  In x (passengers d) /\ passenger_pk x = pk /\
  (is_staff u = true \/ passenger_user x = user_id u).
Proof.
  intros H; apply find_some_in in H; destruct H as [Hq Hpk].
  apply Nat.eqb_eq in Hpk.
  unfold passenger_get_queryset in Hq; destruct (is_staff u) eqn:Hs.
  - auto.
  - apply filter_In in Hq; destruct Hq as [Hq Ho]; apply Nat.eqb_eq in Ho; auto.
Qed.

Lemma in_replace_rider_other (x r : Rider) (rs : list Rider) :
  In r rs -> rider_pk r <> rider_pk x -> In r (replace_rider x rs).
Proof.
  intros Hin Hne; unfold replace_rider; apply in_map_iff; exists r; split; [|exact Hin].
  apply Nat.eqb_neq in Hne; rewrite Hne; reflexivity.
Qed.

Lemma in_replace_passenger_other (x p : Passenger) (ps : list Passenger) :
  In p ps -> passenger_pk p <> passenger_pk x -> In p (replace_passenger x ps).
Proof.
  intros Hin Hne; unfold replace_passenger; apply in_map_iff; exists p; split; [|exact Hin].
  apply Nat.eqb_neq in Hne; rewrite Hne; reflexivity.
Qed.

Lemma find_pk_nodup (rs : list Rider) (r : Rider) :
  NoDup (map rider_pk rs) -> In r rs ->
  find (fun r' => Nat.eqb (rider_pk r') (rider_pk r)) rs = Some r.
Proof.
  induction rs as [|x rs IH]; simpl; [contradiction|].
  intros Hnd [<-|Hin]; inversion Hnd as [|? ? Hnotin Hnd']; subst.
  - rewrite Nat.eqb_refl; reflexivity.
  - destruct (Nat.eqb (rider_pk x) (rider_pk r)) eqn:He.
    + apply Nat.eqb_eq in He; exfalso; apply Hnotin; rewrite He; apply in_map; exact Hin.
    + apply IH; assumption.
Qed.

(** [update_location] never answers 403: [get_object] only yields riders the
    requester owns or, for staff, any rider, so the explicit ownership check
    never fires. *)
Theorem update_location_never_forbidden (to_decimal : jvalue -> option Z) (u : User)
  (pk : nat) (data : Payload) (now : Z) (st : State) :
  status_code (fst (update_location to_decimal u pk data now st)) <> HTTP_403_FORBIDDEN.
Proof.
  unfold update_location.
  destruct (rider_get_object u pk (db st)) as [rider|] eqn:Ho; [|discriminate].
  apply rider_get_object_in in Ho; destruct Ho as (_ & _ & Hauth).
  assert (Hc : negb (Nat.eqb (rider_user rider) (user_id u)) && negb (is_staff u) = false).
  { destruct Hauth as [H|H]; [rewrite H, andb_false_r|rewrite H, Nat.eqb_refl]; reflexivity. }
  rewrite Hc.
  destruct (assign_coordinate to_decimal _ _); [|discriminate].
  destruct (assign_coordinate to_decimal _ _); [|discriminate].
  destruct (rider_save now _ _); discriminate.
Qed.

(** A submitted coordinate that [update_location] can store: absent or
    [null], or accepted by the decimal field. *)
Definition coordinate_storable (to_decimal : jvalue -> option Z) (x : option jvalue) : Prop :=
  x = None \/ exists v z, x = Some v /\ to_decimal v = Some z.

(** A staff requester can move any existing rider: when both submitted
    coordinates can be stored, [update_location] answers 200, saves the
    row and deletes the ["available_riders"] slot. *)
Theorem update_location_staff_any_rider (to_decimal : jvalue -> option Z) (u : User)
  (r : Rider) (data : Payload) (now : Z) (st : State) :
  is_staff u = true ->
  In r (riders (db st)) ->
  NoDup (map rider_pk (riders (db st))) ->
  coordinate_storable to_decimal (py_get data "current_latitude") ->
  coordinate_storable to_decimal (py_get data "current_longitude") ->
  status_code (fst (update_location to_decimal u (rider_pk r) data now st)) = HTTP_200_OK /\
  cache_lookup available_riders_key
    (cache (snd (update_location to_decimal u (rider_pk r) data now st))) = None.
Proof.
  intros Hs Hin Hnd Hlat Hlon.
  assert (Ho : rider_get_object u (rider_pk r) (db st) = Some r).
  { unfold rider_get_object, rider_get_queryset; rewrite Hs; apply find_pk_nodup; assumption. }
  assert (Ha : forall x cur, coordinate_storable to_decimal x ->
                 exists y, assign_coordinate to_decimal x cur = Some y).
  { intros x cur [->|(v & z & -> & Hz)]; simpl; [|rewrite Hz]; eexists; reflexivity. }
  destruct (Ha _ (current_latitude r) Hlat) as [lat Hla].
  destruct (Ha _ (current_longitude r) Hlon) as [lon Hlo].
  rewrite (update_location_authorized to_decimal u r data now st lat lon Ho
             (or_intror Hs) Hla Hlo).
  split; [reflexivity|apply cache_lookup_delete_same].
Qed.

(** A submitted coordinate the decimal field rejects makes [rider.save()]
    raise: the request fails with a server error before the cache is
    touched, and nothing is written. *)
Theorem update_location_rejected_coordinate (to_decimal : jvalue -> option Z)
  (u : User) (pk : nat) (data : Payload) (now : Z) (st : State) (v : jvalue) :
  (py_get data "current_latitude" = Some v \/ py_get data "current_longitude" = Some v) ->
  to_decimal v = None ->
  update_location to_decimal u pk data now st = (not_found, st) \/
  update_location to_decimal u pk data now st = (server_error, st).
Proof.
  intros Hv Hz; unfold update_location.
  destruct (rider_get_object u pk (db st)) as [rider|] eqn:Ho; [|left; reflexivity].
  apply rider_get_object_in in Ho; destruct Ho as (_ & _ & Hauth).
  assert (Hc : negb (Nat.eqb (rider_user rider) (user_id u)) && negb (is_staff u) = false).
  { destruct Hauth as [H|H]; [rewrite H, andb_false_r|rewrite H, Nat.eqb_refl]; reflexivity. }
  rewrite Hc; right.
  destruct Hv as [Hv|Hv]; rewrite Hv; simpl; rewrite Hz.
  - reflexivity.
  - destruct (assign_coordinate to_decimal _ _); reflexivity.
Qed.

Lemma owned_pk_differs (rs : list Rider) (r x : Rider) (uid : nat) :
  NoDup (map rider_pk rs) -> In r rs -> In x rs ->
  rider_user r <> uid -> rider_user x = uid -> rider_pk r <> rider_pk x.
Proof.
  intros Hnd Hr Hx Hru Hxu Hpk.
  assert (r = x) by (apply (nodup_map_inj rider_pk rs); assumption).
  subst; contradiction.
Qed.

Lemma owned_passenger_pk_differs (ps : list Passenger) (p x : Passenger) (uid : nat) :
  NoDup (map passenger_pk ps) -> In p ps -> In x ps ->
  passenger_user p <> uid -> passenger_user x = uid -> passenger_pk p <> passenger_pk x.
Proof.
  intros Hnd Hp Hx Hpu Hxu Hpk.
  assert (p = x) by (apply (nodup_map_inj passenger_pk ps); assumption).
  subst; contradiction.
Qed.

(** No request by a non-staff user changes or removes a rider profile owned
    by someone else (primary keys being unique): [get_object] only yields
    the requester's own rows, [create] only appends, and the passenger
    requests do not touch the rider table. *)
Theorem nonstaff_keeps_others_riders to_decimal rider_defaults passenger_defaults
  rider_required_ok passenger_required_ok (u : User) (now : Z) (req : Request)
  (st : State) (r : Rider) :
  is_staff u = false ->
  NoDup (map rider_pk (riders (db st))) ->
  In r (riders (db st)) ->
  rider_user r <> user_id u ->
  In r (riders (db (snd (handle to_decimal rider_defaults passenger_defaults
                           rider_required_ok passenger_required_ok u now req st)))).
Proof.
  intros Hs Hnd Hin Hown.
  assert (Hother : forall pk x, rider_get_object u pk (db st) = Some x ->
                     rider_pk r <> rider_pk x).
  { intros pk x Ho; apply rider_get_object_in in Ho; destruct Ho as (Hx & _ & [Hst|Hx']);
      [rewrite Hs in Hst; discriminate|].
    apply (owned_pk_differs (riders (db st)) r x (user_id u)); assumption. }
  destruct req; simpl.
  - exact Hin.
  - unfold rider_retrieve; destruct (rider_get_object u pk (db st)); exact Hin.
  - unfold rider_create.
    destruct (negb (rider_required_ok data)); [exact Hin|].
    destruct (apply_rider_fields to_decimal rider_defaults data); [|exact Hin].
    destruct (existsb _ (riders (db st))); [exact Hin|].
    simpl; apply in_or_app; left; exact Hin.
  - unfold rider_partial_update.
    destruct (rider_get_object u pk (db st)) as [inst|] eqn:Ho; [|exact Hin].
    destruct (apply_rider_fields to_decimal inst data) as [r1|] eqn:Ha; [|exact Hin].
    apply apply_rider_fields_read_only in Ha; destruct Ha as [Hpk _].
    simpl; apply in_replace_rider_other; [exact Hin|].
    simpl; rewrite Hpk; exact (Hother pk inst Ho).
  - unfold rider_destroy.
    destruct (rider_get_object u pk (db st)) as [x|] eqn:Ho; [|exact Hin].
    simpl; apply filter_In; split; [exact Hin|].
    apply negb_true_iff, Nat.eqb_neq; exact (Hother pk x Ho).
  - unfold rider_my_profile; destruct (filter _ _) as [|? [|? ?]]; exact Hin.
  - unfold available_riders; destruct (cache_get _ _ _); exact Hin.
  - unfold update_location.
    destruct (rider_get_object u pk (db st)) as [x|] eqn:Ho; [|exact Hin].
    destruct (negb _ && negb _); [exact Hin|].
    destruct (assign_coordinate to_decimal _ _) as [lat|]; [|exact Hin].
    destruct (assign_coordinate to_decimal _ _) as [lon|]; [|exact Hin].
    simpl; apply in_replace_rider_other; [exact Hin|].
    exact (Hother pk x Ho).
  - exact Hin.
  - unfold passenger_retrieve; destruct (passenger_get_object u pk (db st)); exact Hin.
  - unfold passenger_create.
    destruct (negb (passenger_required_ok data)); [exact Hin|].
    destruct (apply_passenger_fields passenger_defaults data); [|exact Hin].
    destruct (existsb _ (passengers (db st))); exact Hin.
  - unfold passenger_partial_update.
    destruct (passenger_get_object u pk (db st)); [|exact Hin].
    destruct (apply_passenger_fields _ data); exact Hin.
  - unfold passenger_destroy; destruct (passenger_get_object u pk (db st)); exact Hin.
  - unfold passenger_my_profile; destruct (filter _ _) as [|? [|? ?]]; exact Hin.
Qed.

(** The same for passenger profiles. *)
Theorem nonstaff_keeps_others_passengers to_decimal rider_defaults passenger_defaults
  rider_required_ok passenger_required_ok (u : User) (now : Z) (req : Request)
  (st : State) (p : Passenger) :
  is_staff u = false ->
  NoDup (map passenger_pk (passengers (db st))) ->
  In p (passengers (db st)) ->
  passenger_user p <> user_id u ->
  In p (passengers (db (snd (handle to_decimal rider_defaults passenger_defaults
                               rider_required_ok passenger_required_ok u now req st)))).
Proof.
  intros Hs Hnd Hin Hown.
  assert (Hother : forall pk x, passenger_get_object u pk (db st) = Some x ->
                     passenger_pk p <> passenger_pk x).
  { intros pk x Ho; apply passenger_get_object_in in Ho; destruct Ho as (Hx & _ & [Hst|Hx']);
      [rewrite Hs in Hst; discriminate|].
    apply (owned_passenger_pk_differs (passengers (db st)) p x (user_id u)); assumption. }
  destruct req; simpl.
  - exact Hin.
  - unfold rider_retrieve; destruct (rider_get_object u pk (db st)); exact Hin.
  - unfold rider_create.
    destruct (negb (rider_required_ok data)); [exact Hin|].
    destruct (apply_rider_fields to_decimal rider_defaults data); [|exact Hin].
    destruct (existsb _ (riders (db st))); exact Hin.
  - unfold rider_partial_update.
    destruct (rider_get_object u pk (db st)); [|exact Hin].
    destruct (apply_rider_fields to_decimal _ data); exact Hin.
  - unfold rider_destroy; destruct (rider_get_object u pk (db st)); exact Hin.
  - unfold rider_my_profile; destruct (filter _ _) as [|? [|? ?]]; exact Hin.
  - unfold available_riders; destruct (cache_get _ _ _); exact Hin.
  - unfold update_location.
    destruct (rider_get_object u pk (db st)); [|exact Hin].
    destruct (negb _ && negb _); [exact Hin|].
    destruct (assign_coordinate to_decimal _ _); [|exact Hin].
    destruct (assign_coordinate to_decimal _ _); exact Hin.
  - exact Hin.
  - unfold passenger_retrieve; destruct (passenger_get_object u pk (db st)); exact Hin.
  - unfold passenger_create.
    destruct (negb (passenger_required_ok data)); [exact Hin|].
    destruct (apply_passenger_fields passenger_defaults data); [|exact Hin].
    destruct (existsb _ (passengers (db st))); [exact Hin|].
    simpl; apply in_or_app; left; exact Hin.
  - unfold passenger_partial_update.
    destruct (passenger_get_object u pk (db st)) as [inst|] eqn:Ho; [|exact Hin].
    destruct (apply_passenger_fields inst data) as [p1|] eqn:Ha; [|exact Hin].
    apply apply_passenger_fields_read_only in Ha; destruct Ha as [Hpk _].
    simpl; apply in_replace_passenger_other; [exact Hin|].
    simpl; rewrite Hpk; exact (Hother pk inst Ho).
  - unfold passenger_destroy.
    destruct (passenger_get_object u pk (db st)) as [x|] eqn:Ho; [|exact Hin].
    simpl; apply filter_In; split; [exact Hin|].
    apply negb_true_iff, Nat.eqb_neq; exact (Hother pk x Ho).
  - unfold passenger_my_profile; destruct (filter _ _) as [|? [|? ?]]; exact Hin.
Qed.

(** A successful generic rider update ([partial_update]) writes back the
    looked-up row with its primary key, owner, [average_rating],
    [total_rides], [total_earnings] and [created_at] unchanged, whatever
    the payload holds, and with [updated_at] set to the time of the call. *)
Theorem rider_partial_update_read_only_fields (to_decimal : jvalue -> option Z)
  (u : User) (pk : nat) (data : Payload) (now : Z) (st : State) :
  status_code (fst (rider_partial_update to_decimal u pk data now st)) = HTTP_200_OK ->
  exists r0 r',
    rider_get_object u pk (db st) = Some r0 /\
    riders (db (snd (rider_partial_update to_decimal u pk data now st))) =
      replace_rider r' (riders (db st)) /\
    rider_pk r' = rider_pk r0 /\ rider_user r' = rider_user r0 /\
    average_rating r' = average_rating r0 /\ total_rides r' = total_rides r0 /\
    total_earnings r' = total_earnings r0 /\ r_created_at r' = r_created_at r0 /\
    r_updated_at r' = now.
Proof.
  unfold rider_partial_update.
  destruct (rider_get_object u pk (db st)) as [r0|] eqn:Ho; [|discriminate].
  destruct (apply_rider_fields to_decimal r0 data) as [r1|] eqn:Ha; [|discriminate].
  intros _; exists r0, (rider_set_updated_at r1 now).
  apply apply_rider_fields_read_only in Ha.
  destruct Ha as (H1 & H2 & H3 & H4 & H5 & H6 & _).
  simpl; repeat split; assumption.
Qed.

(** The same for passengers: primary key, owner and [created_at] are kept. *)
Theorem passenger_partial_update_read_only_fields (u : User) (pk : nat)
  (data : Payload) (now : Z) (st : State) :
  status_code (fst (passenger_partial_update u pk data now st)) = HTTP_200_OK ->
  exists p0 p',
    passenger_get_object u pk (db st) = Some p0 /\
    passengers (db (snd (passenger_partial_update u pk data now st))) =
      replace_passenger p' (passengers (db st)) /\
    passenger_pk p' = passenger_pk p0 /\ passenger_user p' = passenger_user p0 /\
    p_created_at p' = p_created_at p0 /\ p_updated_at p' = now.
Proof.
  unfold passenger_partial_update.
  destruct (passenger_get_object u pk (db st)) as [p0|] eqn:Ho; [|discriminate].
  destruct (apply_passenger_fields p0 data) as [p1|] eqn:Ha; [|discriminate].
  intros _; exists p0, (passenger_set_updated_at p1 now).
  apply apply_passenger_fields_read_only in Ha.
  destruct Ha as (H1 & H2 & H3 & _).
  simpl; repeat split; assumption.
Qed.

(** A created rider gets the next primary key, the requester as owner,
    [created_at = updated_at = now], and the model defaults for
    [average_rating], [total_rides] and [total_earnings]: a client cannot
    set the server-computed fields. *)
Theorem rider_create_server_fields (to_decimal : jvalue -> option Z) rider_defaults
  rider_required_ok (u : User) (data : Payload) (now : Z) (st : State) :
  status_code (fst (rider_create to_decimal rider_defaults rider_required_ok
                      u data now st)) = HTTP_201_CREATED ->
  exists r,
    riders (db (snd (rider_create to_decimal rider_defaults rider_required_ok
                       u data now st))) = (riders (db st) ++ [r])%list /\
    rider_pk r = next_pk (db st) /\ rider_user r = user_id u /\
    average_rating r = average_rating rider_defaults /\
    total_rides r = total_rides rider_defaults /\
    total_earnings r = total_earnings rider_defaults /\
    r_created_at r = now /\ r_updated_at r = now.
Proof.
  unfold rider_create.
  destruct (negb (rider_required_ok data)); [discriminate|].
  destruct (apply_rider_fields to_decimal rider_defaults data) as [v|] eqn:Ha;
    [|discriminate].
  destruct (existsb _ (riders (db st))); [discriminate|].
  intros _; apply apply_rider_fields_read_only in Ha.
  destruct Ha as (_ & _ & H3 & H4 & H5 & _).
  eexists; split; [reflexivity|]; simpl; repeat split; assumption.
Qed.

Lemma cache_lookup_delete_other (k k' : string) (c : Cache) :
  k' <> k -> cache_lookup k' (cache_delete k c) = cache_lookup k' c.
Proof.
  intros Hne; induction c as [|[k1 e] c IH]; simpl; [reflexivity|].
  destruct (String.eqb k k1) eqn:H1; simpl.
  - apply String.eqb_eq in H1; subst k1.
    apply String.eqb_neq in Hne; rewrite Hne; exact IH.
  - rewrite IH; reflexivity.
Qed.

Lemma cache_lookup_set_other (k k' : string) (v : list RiderView) (timeout now : Z)
  (c : Cache) :
  k' <> k -> cache_lookup k' (cache_set k v timeout now c) = cache_lookup k' c.
Proof.
  intros Hne; unfold cache_set; simpl.
  apply String.eqb_neq in Hne as Hb; rewrite Hb.
  apply cache_lookup_delete_other; exact Hne.
Qed.

(** No request changes a cache entry under any key other than
    ["available_riders"]. *)
Theorem handle_other_cache_keys to_decimal rider_defaults passenger_defaults
  rider_required_ok passenger_required_ok (u : User) (now : Z) (req : Request)
  (st : State) (k : string) :
  k <> available_riders_key ->
  cache_lookup k (cache (snd (handle to_decimal rider_defaults passenger_defaults
                                rider_required_ok passenger_required_ok u now req st)))
  = cache_lookup k (cache st).
Proof.
  intros Hk.
  destruct (cache_neutral req) eqn:Hn.
  - rewrite handle_cache_neutral by exact Hn; reflexivity.
  - destruct req; try discriminate; simpl.
    + unfold available_riders.
      destruct (cache_get available_riders_key now (cache st)); [reflexivity|].
      simpl; apply cache_lookup_set_other; exact Hk.
    + unfold update_location.
      destruct (rider_get_object u pk (db st)); [|reflexivity].
      destruct (negb _ && negb _); [reflexivity|].
      destruct (assign_coordinate to_decimal _ _); [|reflexivity].
      destruct (assign_coordinate to_decimal _ _); [|reflexivity].
      simpl; apply cache_lookup_delete_other; exact Hk.
Qed.

(** List, retrieve, [my_profile] and [available_riders] never write the
    store; all but [available_riders] leave the cache as it was too. *)
Theorem read_only_requests_keep_store to_decimal rider_defaults passenger_defaults
  rider_required_ok passenger_required_ok (u : User) (now : Z) (req : Request)
  (st : State) :
  read_only_request req = true ->
  let st' := snd (handle to_decimal rider_defaults passenger_defaults
                    rider_required_ok passenger_required_ok u now req st) in
  db st' = db st /\ (req <> RiderAvailable -> st' = st).
Proof.
  intros Hr st'; unfold st'; clear st'.
  destruct req; try discriminate; simpl;
  unfold rider_list, rider_retrieve, rider_my_profile, available_riders,
    passenger_list, passenger_retrieve, passenger_my_profile;
  split_view_matches; simpl; split; try reflexivity; intros Hne;
  first [reflexivity | exfalso; apply Hne; reflexivity].
Qed.

(** [my_profile] only ever answers 200 with the requester's own profile,
    for staff as for anyone; a requester with two rider (passenger)
    profiles gets a server error, since only [DoesNotExist] is caught. *)
Theorem my_profile_own_only (u : User) (st : State) :
  (status_code (fst (rider_my_profile u st)) = HTTP_200_OK ->
   exists r, In r (riders (db st)) /\ rider_user r = user_id u /\
     fst (rider_my_profile u st) =
       mkResponse HTTP_200_OK (BRider (serialize_rider (db st) r))) /\
  (status_code (fst (passenger_my_profile u st)) = HTTP_200_OK ->
   exists p, In p (passengers (db st)) /\ passenger_user p = user_id u /\
     fst (passenger_my_profile u st) =
       mkResponse HTTP_200_OK (BPassenger (serialize_passenger (db st) p))) /\
  (forall r1 r2 rest,
     filter (fun r => Nat.eqb (rider_user r) (user_id u)) (riders (db st)) = r1 :: r2 :: rest ->
     rider_my_profile u st = (server_error, st)) /\
  (forall p1 p2 rest,
     filter (fun p => Nat.eqb (passenger_user p) (user_id u)) (passengers (db st))
       = p1 :: p2 :: rest ->
     passenger_my_profile u st = (server_error, st)).
Proof.
  split; [|split; [|split]].
  - unfold rider_my_profile.
    destruct (filter _ _) as [|r [|r' rest]] eqn:Hf; try discriminate.
    intros _; exists r.
    assert (Hin : In r (filter (fun r => Nat.eqb (rider_user r) (user_id u)) (riders (db st))))
      by (rewrite Hf; left; reflexivity).
    apply filter_In in Hin; destruct Hin as [Hin Ho]; apply Nat.eqb_eq in Ho.
    repeat split; assumption.
  - unfold passenger_my_profile.
    destruct (filter _ _) as [|p [|p' rest]] eqn:Hf; try discriminate.
    intros _; exists p.
    assert (Hin : In p (filter (fun p => Nat.eqb (passenger_user p) (user_id u))
                          (passengers (db st))))
      by (rewrite Hf; left; reflexivity).
    apply filter_In in Hin; destruct Hin as [Hin Ho]; apply Nat.eqb_eq in Ho.
    repeat split; assumption.
  - intros r1 r2 rest Hf; unfold rider_my_profile; rewrite Hf; reflexivity.
  - intros p1 p2 rest Hf; unfold passenger_my_profile; rewrite Hf; reflexivity.
Qed.

Lemma collect_fields_lookup mf vp (fs : list string) (data attrs : Payload)
  (k : string) (v : jvalue) :
  collect_fields mf vp fs data = Some attrs -> In k fs -> payload_lookup k data = Some v ->
  exists v', registration_run_validation mf vp k v = Some v' /\
             payload_lookup k attrs = Some v'.
Proof.
  revert attrs; induction fs as [|k0 fs IH]; intros attrs Hc Hin Hv; [destruct Hin|].
  cbn [collect_fields] in Hc.
  destruct (collect_fields mf vp fs data) as [rest|] eqn:Hr; [|discriminate].
  destruct (String.eqb k k0) eqn:Hk.
  - apply String.eqb_eq in Hk; subst k0; rewrite Hv in Hc.
    destruct (registration_run_validation mf vp k v) as [v'|]; [|discriminate].
    injection Hc as <-; exists v'; split; [reflexivity|].
    cbn [payload_lookup]; rewrite String.eqb_refl; reflexivity.
  - destruct Hin as [->|Hin]; [rewrite String.eqb_refl in Hk; discriminate|].
    destruct (IH rest eq_refl Hin Hv) as (v' & Hrv & Hl).
    exists v'; split; [exact Hrv|].
    destruct (payload_lookup k0 data) as [v0|].
    + destruct (registration_run_validation mf vp k0 v0); [|discriminate].
      injection Hc as <-; cbn [payload_lookup]; rewrite Hk; exact Hl.
    + injection Hc as <-; exact Hl.
Qed.

Lemma collect_fields_in mf vp (fs : list string) (data attrs : Payload)
  (k : string) (v' : jvalue) :
  collect_fields mf vp fs data = Some attrs -> In (k, v') attrs ->
  In k fs /\ exists v, payload_lookup k data = Some v /\
                      registration_run_validation mf vp k v = Some v'.
Proof.
  revert attrs; induction fs as [|k0 fs IH]; intros attrs Hc Hin.
  - cbn in Hc; injection Hc as <-; destruct Hin.
  - cbn [collect_fields] in Hc.
    destruct (collect_fields mf vp fs data) as [rest|] eqn:Hr; [|discriminate].
    destruct (payload_lookup k0 data) as [v0|] eqn:Hv0.
    + destruct (registration_run_validation mf vp k0 v0) as [v0'|] eqn:Hr0;
        [|discriminate].
      injection Hc as <-; destruct Hin as [Heq|Hin].
      * injection Heq as <- <-; split; [left; reflexivity|exists v0; split; assumption].
      * destruct (IH rest eq_refl Hin) as [Hk Hex]; split; [right; exact Hk|exact Hex].
    + injection Hc as <-.
      destruct (IH rest eq_refl Hin) as [Hk Hex]; split; [right; exact Hk|exact Hex].
Qed.

Lemma pop_key_lookup (k : string) (d : Payload) : payload_lookup k (pop_key k d) = None.
Proof.
  unfold pop_key; induction d as [|[k' v] d IH]; [reflexivity|].
  cbn [filter fst].
  destruct (String.eqb k' k) eqn:Hk; cbn [negb]; [exact IH|].
  cbn [payload_lookup]; rewrite String.eqb_sym, Hk; exact IH.
Qed.

Lemma pop_key_in (k : string) (kv : string * jvalue) (d : Payload) :
  In kv (pop_key k d) -> In kv d /\ fst kv <> k.
Proof.
  unfold pop_key; intros Hin; apply filter_In in Hin; destruct Hin as [Hin Hk].
  apply negb_true_iff, String.eqb_neq in Hk; split; assumption.
Qed.

Lemma run_validation_password mf vp (v v' : jvalue) :
  registration_run_validation mf vp "password" v = Some v' ->
  exists p, char_field_run_validation v = Some p /\ vp p = true /\ v' = JStr p.
Proof.
  unfold registration_run_validation; rewrite String.eqb_refl.
  destruct (char_field_run_validation v) as [p|]; [|discriminate].
  destruct (vp p) eqn:Hp; [|discriminate].
  intros H; injection H as <-; exists p; auto.
Qed.

Lemma run_validation_password2 mf vp (v v' : jvalue) :
  registration_run_validation mf vp "password2" v = Some v' ->
  exists p, char_field_run_validation v = Some p /\ v' = JStr p.
Proof.
  unfold registration_run_validation.
  replace (String.eqb "password2" "password") with false by reflexivity.
  rewrite String.eqb_refl.
  destruct (char_field_run_validation v) as [p|]; [|discriminate].
  intros H; injection H as <-; exists p; auto.
Qed.

(** Once every submitted field passes its run and the required fields are
    there, registration compares the cleaned passwords, that is the
    [CharField] values after coercion to a string and stripping: different
    cleaned values answer 400 with the error on [password] and create no
    user; equal cleaned values (such as [" a1b2c3d4"] and ["a1b2c3d4"])
    answer 201. *)
Theorem user_create_password_check mf vp fields_valid create_user issue_tokens
  (data : Payload) (d : DB) (attrs : Payload) (v v2 : jvalue) (p p2 : string) :
  registration_attrs mf vp data = Some attrs ->
  registration_required_present attrs = true ->
  fields_valid d attrs = true ->
  payload_lookup "password" data = Some v -> char_field_run_validation v = Some p ->
  payload_lookup "password2" data = Some v2 -> char_field_run_validation v2 = Some p2 ->
  (p <> p2 ->
   user_create mf vp fields_valid create_user issue_tokens data d =
   (mkRegResponse HTTP_400_BAD_REQUEST
      (RegErrors [("password", "Password fields didn't match.")]), d)) /\
  (p = p2 ->
   reg_status (fst (user_create mf vp fields_valid create_user issue_tokens data d))
   = HTTP_201_CREATED).
Proof.
  intros Ha Hreq Hfv Hv Hp Hv2 Hp2.
  pose proof Ha as Hc; unfold registration_attrs in Hc.
  destruct (collect_fields_lookup mf vp _ _ _ "password" v Hc ltac:(simpl; tauto) Hv)
    as (w & Hw & Hlw).
  destruct (run_validation_password mf vp v w Hw) as (q & Hq & _ & ->).
  rewrite Hp in Hq; injection Hq as <-.
  destruct (collect_fields_lookup mf vp _ _ _ "password2" v2 Hc ltac:(simpl; tauto) Hv2)
    as (w2 & Hw2 & Hlw2).
  destruct (run_validation_password2 mf vp v2 w2 Hw2) as (q2 & Hq2 & ->).
  rewrite Hp2 in Hq2; injection Hq2 as <-.
  unfold user_create; rewrite Ha, Hreq, Hfv; cbn [andb negb]; rewrite Hlw, Hlw2.
  cbn [jvalue_eqb]; split.
  - intros Hne; destruct (String.eqb p p2) eqn:He;
      [apply String.eqb_eq in He; contradiction|reflexivity].
  - intros <-; rewrite String.eqb_refl.
    destruct (create_user _ d) as [user d']; destruct (issue_tokens user); reflexivity.
Qed.

(** A successful registration answers 201 with the new user's view, the
    two tokens and the success message. [create_user] receives no
    [password2], and each pair it receives is a declared field present in
    the data, with the value that field's run gives for the submitted value
    (for [password], the coerced and stripped string): other keys (such as
    [is_staff]) never reach it. *)
Theorem user_create_success mf vp fields_valid create_user issue_tokens
  (data : Payload) (d : DB) :
  reg_status (fst (user_create mf vp fields_valid create_user issue_tokens data d))
    = HTTP_201_CREATED ->
  exists validated_data,
    user_create mf vp fields_valid create_user issue_tokens data d =
    (mkRegResponse HTTP_201_CREATED
       (RegCreated (serialize_user (fst (create_user validated_data d)))
          (fst (issue_tokens (fst (create_user validated_data d))))
          (snd (issue_tokens (fst (create_user validated_data d))))
          "User registered successfully"),
     snd (create_user validated_data d)) /\
    payload_lookup "password2" validated_data = None /\
    (forall k v', In (k, v') validated_data ->
       In k registration_fields /\ k <> "password2" /\
       exists v, payload_lookup k data = Some v /\
                 registration_run_validation mf vp k v = Some v').
Proof.
  unfold user_create.
  destruct (registration_attrs mf vp data) as [attrs|] eqn:Ha; [|discriminate].
  destruct (negb _); [discriminate|].
  destruct (payload_lookup "password" attrs) as [p|]; [|discriminate].
  destruct (payload_lookup "password2" attrs) as [p2|]; [|discriminate].
  destruct (jvalue_eqb p p2); [|discriminate].
  intros _; exists (pop_key "password2" attrs).
  split; [|split].
  - destruct (create_user _ d) as [user d']; simpl.
    destruct (issue_tokens user); reflexivity.
  - apply pop_key_lookup.
  - intros k v' Hin; apply pop_key_in in Hin; destruct Hin as [Hin Hk].
    unfold registration_attrs in Ha.
    destruct (collect_fields_in mf vp _ _ _ k v' Ha Hin) as [Hf Hex].
    split; [exact Hf|split; [exact Hk|exact Hex]].
Qed.

(** ** Instances of the further properties on the sample data *)

Lemma update_location_staff_any_rider_witness :
  status_code (fst (update_location demo_to_decimal user_admin 11
                      [("current_longitude", JNum 3%Z)] 30 filled_state)) = HTTP_200_OK /\
  cache_lookup available_riders_key
    (cache (snd (update_location demo_to_decimal user_admin 11
                   [("current_longitude", JNum 3%Z)] 30 filled_state))) = None.
Proof.
  apply (update_location_staff_any_rider demo_to_decimal user_admin rider_b
           [("current_longitude", JNum 3%Z)] 30 filled_state).
  - reflexivity.
  - vm_compute; auto.
  - vm_compute; repeat constructor; simpl; lia.
  - left; reflexivity.
  - right; exists (JNum 3%Z), 3%Z; split; reflexivity.
Defined.

Lemma update_location_rejected_coordinate_witness :
  update_location demo_to_decimal user_bob 11 [("current_latitude", JStr "north")] 30
    filled_state = (not_found, filled_state) \/
  update_location demo_to_decimal user_bob 11 [("current_latitude", JStr "north")] 30
    filled_state = (server_error, filled_state).
Proof.
  apply (update_location_rejected_coordinate demo_to_decimal user_bob 11
           [("current_latitude", JStr "north")] 30 filled_state (JStr "north")).
  - left; reflexivity.
  - reflexivity.
Defined.

Lemma nonstaff_keeps_others_riders_witness :
  In rider_b (riders (db (snd (handle demo_to_decimal demo_rider_defaults
                                 demo_passenger_defaults demo_required_ok demo_required_ok
                                 user_ann 5 (RiderDestroy 11) demo_state)))).
Proof.
  apply (nonstaff_keeps_others_riders demo_to_decimal demo_rider_defaults
           demo_passenger_defaults demo_required_ok demo_required_ok user_ann 5
           (RiderDestroy 11) demo_state rider_b).
  - reflexivity.
  - vm_compute; repeat constructor; simpl; lia.
  - vm_compute; auto.
  - simpl; lia.
Defined.

Lemma nonstaff_keeps_others_passengers_witness :
  In passenger_cat
    (passengers (db (snd (handle demo_to_decimal demo_rider_defaults
                            demo_passenger_defaults demo_required_ok demo_required_ok
                            user_ann 5 (PassengerPartialUpdate 20
                                          [("home_address", JStr "elsewhere")])
                            passenger_state)))).
Proof.
  apply (nonstaff_keeps_others_passengers demo_to_decimal demo_rider_defaults
           demo_passenger_defaults demo_required_ok demo_required_ok user_ann 5
           (PassengerPartialUpdate 20 [("home_address", JStr "elsewhere")])
           passenger_state passenger_cat).
  - reflexivity.
  - vm_compute; repeat constructor; simpl; lia.
  - vm_compute; auto.
  - simpl; lia.
Defined.

Lemma rider_partial_update_read_only_fields_witness :
  exists r0 r',
    rider_get_object user_bob 11 demo_db = Some r0 /\
    riders (db (snd (rider_partial_update demo_to_decimal user_bob 11
                       [("average_rating", JNum 5%Z); ("is_available", JBool true)]
                       40 demo_state))) = replace_rider r' (riders demo_db) /\
    rider_pk r' = rider_pk r0 /\ rider_user r' = rider_user r0 /\
    average_rating r' = average_rating r0 /\ total_rides r' = total_rides r0 /\
    total_earnings r' = total_earnings r0 /\ r_created_at r' = r_created_at r0 /\
    r_updated_at r' = 40%Z.
Proof.
  apply (rider_partial_update_read_only_fields demo_to_decimal user_bob 11
           [("average_rating", JNum 5%Z); ("is_available", JBool true)] 40 demo_state).
  vm_compute; reflexivity.
Defined.

Lemma passenger_partial_update_read_only_fields_witness :
  exists p0 p',
    passenger_get_object user_cat 20 (db passenger_state) = Some p0 /\
    passengers (db (snd (passenger_partial_update user_cat 20
                           [("is_verified", JBool true); ("user", JNum 1%Z)]
                           40 passenger_state))) =
      replace_passenger p' (passengers (db passenger_state)) /\
    passenger_pk p' = passenger_pk p0 /\ passenger_user p' = passenger_user p0 /\
    p_created_at p' = p_created_at p0 /\ p_updated_at p' = 40%Z.
Proof.
  apply (passenger_partial_update_read_only_fields user_cat 20
           [("is_verified", JBool true); ("user", JNum 1%Z)] 40 passenger_state).
  vm_compute; reflexivity.
Defined.

Lemma rider_create_server_fields_witness :
  exists r,
    riders (db (snd (rider_create demo_to_decimal demo_rider_defaults demo_required_ok
                       user_cat [("total_earnings", JNum 1000%Z); ("license_number", JStr "X")]
                       60 demo_state))) = (riders demo_db ++ [r])%list /\
    rider_pk r = next_pk demo_db /\ rider_user r = user_id user_cat /\
    average_rating r = average_rating demo_rider_defaults /\
    total_rides r = total_rides demo_rider_defaults /\
    total_earnings r = total_earnings demo_rider_defaults /\
    r_created_at r = 60%Z /\ r_updated_at r = 60%Z.
Proof.
  apply (rider_create_server_fields demo_to_decimal demo_rider_defaults demo_required_ok
           user_cat [("total_earnings", JNum 1000%Z); ("license_number", JStr "X")]
           60 demo_state).
  vm_compute; reflexivity.
Defined.

Lemma handle_other_cache_keys_witness :
  cache_lookup "sessions"
    (cache (snd (handle demo_to_decimal demo_rider_defaults demo_passenger_defaults
                   demo_required_ok demo_required_ok user_cat 5 RiderAvailable
                   (mkState demo_db [("sessions", ([], 99%Z))])))) =
  Some ([], 99%Z).
Proof.
  apply (handle_other_cache_keys demo_to_decimal demo_rider_defaults
           demo_passenger_defaults demo_required_ok demo_required_ok user_cat 5
           RiderAvailable (mkState demo_db [("sessions", ([], 99%Z))]) "sessions").
  vm_compute; discriminate.
Defined.

Lemma read_only_requests_keep_store_witness :
  snd (handle demo_to_decimal demo_rider_defaults demo_passenger_defaults
         demo_required_ok demo_required_ok user_bob 5 RiderList filled_state) =
  filled_state.
Proof.
  destruct (read_only_requests_keep_store demo_to_decimal demo_rider_defaults
              demo_passenger_defaults demo_required_ok demo_required_ok user_bob 5
              RiderList filled_state eq_refl) as [_ H].
  apply H; discriminate.
Defined.

Lemma my_profile_own_only_witness :
  exists r, In r (riders demo_db) /\ rider_user r = user_id user_bob /\
    fst (rider_my_profile user_bob demo_state) =
      mkResponse HTTP_200_OK (BRider (serialize_rider demo_db r)).
Proof.
  destruct (my_profile_own_only user_bob demo_state) as [H _].
  apply H; vm_compute; reflexivity.
Defined.

(** Dan's password with a leading space matches the same password without
    it; a password differing in its last character does not. *)
Lemma user_create_password_check_witness :
  reg_status (fst (user_create demo_model_field_run_validation demo_validate_password
                     demo_fields_valid demo_create_user demo_issue_tokens
                     [("email", JStr "dan@example.com"); ("password", JStr " a1b2c3d4");
                      ("password2", JStr "a1b2c3d4"); ("first_name", JStr "Dan");
                      ("last_name", JStr "Oh")] demo_db)) = HTTP_201_CREATED /\
  user_create demo_model_field_run_validation demo_validate_password
    demo_fields_valid demo_create_user demo_issue_tokens
    [("email", JStr "dan@example.com"); ("password", JStr "a1b2c3d4");
     ("password2", JStr "a1b2c3d5"); ("first_name", JStr "Dan");
     ("last_name", JStr "Oh")] demo_db =
  (mkRegResponse HTTP_400_BAD_REQUEST
     (RegErrors [("password", "Password fields didn't match.")]), demo_db).
Proof.
  split.
  - apply (user_create_password_check demo_model_field_run_validation
             demo_validate_password demo_fields_valid demo_create_user demo_issue_tokens
             [("email", JStr "dan@example.com"); ("password", JStr " a1b2c3d4");
              ("password2", JStr "a1b2c3d4"); ("first_name", JStr "Dan");
              ("last_name", JStr "Oh")] demo_db
             [("email", JStr "dan@example.com"); ("password", JStr "a1b2c3d4");
              ("password2", JStr "a1b2c3d4"); ("first_name", JStr "Dan");
              ("last_name", JStr "Oh")]
             (JStr " a1b2c3d4") (JStr "a1b2c3d4") "a1b2c3d4" "a1b2c3d4");
      vm_compute; reflexivity.
  - apply (user_create_password_check demo_model_field_run_validation
             demo_validate_password demo_fields_valid demo_create_user demo_issue_tokens
             [("email", JStr "dan@example.com"); ("password", JStr "a1b2c3d4");
              ("password2", JStr "a1b2c3d5"); ("first_name", JStr "Dan");
              ("last_name", JStr "Oh")] demo_db
             [("email", JStr "dan@example.com"); ("password", JStr "a1b2c3d4");
              ("password2", JStr "a1b2c3d5"); ("first_name", JStr "Dan");
              ("last_name", JStr "Oh")]
             (JStr "a1b2c3d4") (JStr "a1b2c3d5") "a1b2c3d4" "a1b2c3d5");
      try (vm_compute; reflexivity); discriminate.
Defined.

Lemma user_create_success_witness :
  let data := [("email", JStr " dan@example.com"); ("password", JStr "a1b2c3d4 ");
               ("password2", JStr "a1b2c3d4"); ("first_name", JStr "Dan");
               ("last_name", JStr "Oh"); ("is_staff", JBool true)] in
  exists validated_data,
    user_create demo_model_field_run_validation demo_validate_password
      demo_fields_valid demo_create_user demo_issue_tokens data demo_db =
    (mkRegResponse HTTP_201_CREATED
       (RegCreated (serialize_user (fst (demo_create_user validated_data demo_db)))
          (fst (demo_issue_tokens (fst (demo_create_user validated_data demo_db))))
          (snd (demo_issue_tokens (fst (demo_create_user validated_data demo_db))))
          "User registered successfully"),
     snd (demo_create_user validated_data demo_db)) /\
    payload_lookup "password2" validated_data = None /\
    (forall k v', In (k, v') validated_data ->
       In k registration_fields /\ k <> "password2" /\
       exists v, payload_lookup k data = Some v /\
                 registration_run_validation demo_model_field_run_validation
                   demo_validate_password k v = Some v').
Proof.
  intro data.
  apply (user_create_success demo_model_field_run_validation demo_validate_password
           demo_fields_valid demo_create_user demo_issue_tokens data demo_db).
  vm_compute; reflexivity.
Defined.
